(** * envoy-ai-unified-installer: upstream resolution, staging and install glue

    A shallow embedding of the installer's Go packages ([pkg/upstream],
    [pkg/helm], [cmd/install.go], [cmd/doctor.go]) and of the two chart
    staging shell scripts, together with the properties its specification
    states about them.

    Conventions.
    - Go [string] and shell words are [string] (byte sequences).
    - A Go [error] is [option string]: [None] is [nil], [Some m] carries the
      text of [err.Error()].
    - Everything outside the process (the release host, the package manager
      binary, the cluster, [curl]) is an oracle taken as a [Variable] of the
      enclosing [Section]; the program text around the oracle is translated
      as it is written. *)

From Stdlib Require Import String Ascii List Bool Arith Lia DecimalString.
Import ListNotations.
Open Scope list_scope.
Open Scope string_scope.

(* ===================================================================== *)
(** * Byte strings: the pieces of Go's [strings] and of the shell's
      pattern tests that the program uses *)
(* ===================================================================== *)

Module Str.

(** Line feed, as written [\n] in the sources. *)
Definition nl : string := String (ascii_of_nat 10) EmptyString.

(** The double quote character, for JSON text. *)
Definition dq : string := String (ascii_of_nat 34) EmptyString.

(** Lower-casing of one byte: only [A]..[Z] move.  The keywords matched by
    the program are ASCII letters and dots, and no non-ASCII code point
    lower-cases to one of those letters, so byte-wise lower-casing decides
    keyword containment the same way [strings.ToLower] and a
    case-insensitive regular expression do. *)
Definition lower_byte (c : ascii) : ascii :=
  let n := nat_of_ascii c in
  if ((65 <=? n) && (n <=? 90))%nat then ascii_of_nat (n + 32) else c.

Fixpoint ToLower (s : string) : string :=
  match s with
  | EmptyString => EmptyString
  | String c s' => String (lower_byte c) (ToLower s')
  end.

(** [strings.Contains s substr]. *)
Fixpoint Contains (s substr : string) : bool :=
  String.prefix substr s ||
  match s with
  | EmptyString => false
  | String _ s' => Contains s' substr
  end.

(** [strings.Join elems sep]. *)
Definition Join (elems : list string) (sep : string) : string :=
  String.concat sep elems.

(** Suffix test: [[[ "$s" == *suffix ]]] in the shell, [endswith] in jq. *)
Definition HasSuffix (s suffix : string) : bool :=
  let n := String.length s in
  let k := String.length suffix in
  (k <=? n)%nat && String.eqb (String.substring (n - k) k s) suffix.

(** Decimal rendering of a counter, as the shell expands [$n]. *)
Definition of_nat (n : nat) : string :=
  NilEmpty.string_of_uint (Nat.to_uint n).

(** [IFS='/' read -r owner repo]: the first field is the text before the
    first slash, the last variable takes the rest of the line. *)
Fixpoint read_owner_repo (s : string) : string * string :=
  match s with
  | EmptyString => (EmptyString, EmptyString)
  | String c s' =>
      if Ascii.eqb c "/" then (EmptyString, s')
      else let '(o, r) := read_owner_repo s' in (String c o, r)
  end.

Fixpoint has_slash (s : string) : bool :=
  match s with
  | EmptyString => false
  | String c s' => Ascii.eqb c "/" || has_slash s'
  end.

(** [sed 's/.*\///']: the greedy [.*\/] removes everything up to and
    including the last slash; a word without a slash is left alone. *)
Fixpoint sed_strip_to_last_slash (s : string) : string :=
  match s with
  | EmptyString => EmptyString
  | String c s' =>
      if has_slash s' then sed_strip_to_last_slash s'
      else if Ascii.eqb c "/" then s' else String c s'
  end.

End Str.

(* ===================================================================== *)
(** * [pkg/upstream]: release lookup and chart asset selection (Go) *)
(* ===================================================================== *)

(** The part of go-github's release types the package reads.  Every field is
    a pointer in Go; the [Get...] accessors return the zero value for a nil
    pointer. *)
Module github.

Record ReleaseAsset : Type := mkAsset {
  Name : option string;
  BrowserDownloadURL : option string
}.

Record RepositoryRelease : Type := mkRelease {
  TagName : option string;
  Assets : list ReleaseAsset
}.

Definition GetName (a : ReleaseAsset) : string :=
  match Name a with Some s => s | None => "" end.

Definition GetBrowserDownloadURL (a : ReleaseAsset) : string :=
  match BrowserDownloadURL a with Some s => s | None => "" end.

Definition GetTagName (r : RepositoryRelease) : string :=
  match TagName r with Some s => s | None => "" end.

End github.

Module upstream.
Import github.

Record ChartRelease : Type := mkChart {
  Owner : string;
  Repo : string;
  Version : string;
  URL : string
}.

Definition keywords : list string := ["helm"; "chart"; ".tgz"; "tar.gz"].

(** The inner loop of [findChartAsset]: the first keyword contained in the
    lower-cased name makes the function return the asset's URL. *)
Fixpoint scan_keywords (a : ReleaseAsset) (ks : list string) : option string :=
  match ks with
  | [] => None
  | keyword :: ks' =>
      if Str.Contains (Str.ToLower (GetName a)) keyword
      then Some (GetBrowserDownloadURL a)
      else scan_keywords a ks'
  end.

(** The outer loop of [findChartAsset]. *)
Fixpoint scan_assets (assets : list ReleaseAsset) : string :=
  match assets with
  | [] => ""
  | asset :: rest =>
      match scan_keywords asset keywords with
      | Some url => url
      | None => scan_assets rest
      end
  end.

Definition findChartAsset (rel : RepositoryRelease) : string :=
  scan_assets (Assets rel).

Section Lookup.

(** [client.Repositories.GetLatestRelease(ctx, owner, repo)]: the release
    record, or the text of the error. *)
Variable GetLatestRelease : string -> string -> RepositoryRelease + string.

Definition FetchLatestRelease (owner repo : string) : ChartRelease + string :=
  match GetLatestRelease owner repo with
  | inr err =>
      inr ("failed to fetch latest release for " ++ owner ++ "/" ++ repo
           ++ ": " ++ err)
  | inl rel =>
      let url := findChartAsset rel in
      if String.eqb url ""
      then inr ("no chart asset found for " ++ owner ++ "/" ++ repo)
      else inl {| Owner := owner; Repo := repo;
                  Version := GetTagName rel; URL := url |}
  end.

Definition upstreams : list (string * string) :=
  [ ("envoyproxy", "gateway");
    ("envoyproxy", "ai-gateway-helm");
    ("envoyproxy", "ai-gateway-crds-helm");
    ("envoyproxy", "ai-gateway") ].

(** The loop of [GetUpstreamCharts] with its two accumulators. *)
Fixpoint collect (ups : list (string * string))
         (charts : list ChartRelease) (errors : list string)
  : list ChartRelease * list string :=
  match ups with
  | [] => (charts, errors)
  | (owner, repo) :: rest =>
      match FetchLatestRelease owner repo with
      | inr err => collect rest charts (errors ++ [err])
      | inl chart => collect rest (charts ++ [chart]) errors
      end
  end.

Definition finish (acc : list ChartRelease * list string)
  : list ChartRelease * option string :=
  let '(charts, errors) := acc in
  if (0 <? List.length errors)%nat
  then (charts, Some ("errors fetching upstream charts:" ++ Str.nl
                      ++ Str.Join errors Str.nl))
  else (charts, None).

Definition GetUpstreamChartsOver (ups : list (string * string))
  : list ChartRelease * option string :=
  finish (collect ups [] []).

Definition GetUpstreamCharts : list ChartRelease * option string :=
  GetUpstreamChartsOver upstreams.

End Lookup.

End upstream.

(* ===================================================================== *)
(** * The process's view of the outside: standard output and child
      processes *)
(* ===================================================================== *)

Module os.

(** What a finished child process hands back: the error of [cmd.Run()]
    ([None] for exit status 0) and what it wrote to its standard output. *)
Record ProcResult : Type := mkProc {
  perr : option string;
  pout : string
}.

(** [stdout]: the chunks written to the installer's standard output, oldest
    first.  [procs]: the argument vectors of the child processes started so
    far, oldest first. *)
Record World : Type := mkWorld {
  stdout : list string;
  procs : list (list string)
}.

Definition IO (A : Type) : Type := World -> A * World.

Definition ret {A : Type} (a : A) : IO A := fun w => (a, w).

Definition bind {A B : Type} (m : IO A) (k : A -> IO B) : IO B :=
  fun w => let '(a, w') := m w in k a w'.

(** [fmt.Print], [fmt.Printf] and [fmt.Println] after formatting. *)
Definition Print (s : string) : IO unit :=
  fun w => (tt, {| stdout := stdout w ++ [s]; procs := procs w |}).

Definition Println (s : string) : IO unit := Print (s ++ Str.nl).

Section Exec.

(** The behaviour of the machine the installer runs on: the result of
    starting [argv] after the processes in the history have run. *)
Variable run : list (list string) -> list string -> ProcResult.

Definition start (argv : list string) : IO ProcResult :=
  fun w => (run (procs w) argv,
            {| stdout := stdout w; procs := procs w ++ [argv] |}).

(** [cmd.Stdout = os.Stdout; cmd.Run()]: the child's output appears on
    the installer's standard output. *)
Definition RunInherit (argv : list string) : IO (option string) :=
  fun w => let '(r, w') := start argv w in
           (perr r, {| stdout := stdout w' ++ [pout r]; procs := procs w' |}).

(** [cmd.Run()] with no [Stdout] set: the output is discarded. *)
Definition RunQuiet (argv : list string) : IO (option string) :=
  fun w => let '(r, w') := start argv w in (perr r, w').

(** [cmd.Output()], and [cmd.Run()] into a buffer. *)
Definition Output (argv : list string) : IO (string * option string) :=
  fun w => let '(r, w') := start argv w in ((pout r, perr r), w').

End Exec.

End os.

Declare Scope io_scope.
Delimit Scope io_scope with io.
Notation "x <- m ;; k" := (os.bind m (fun x => k))
  (at level 61, m at next level, right associativity) : io_scope.
Notation "m ;;; k" := (os.bind m (fun _ => k))
  (at level 61, right associativity) : io_scope.

(* ===================================================================== *)
(** * [pkg/helm]: the package-manager invocation surface (Go) *)
(* ===================================================================== *)

Module helm.
Import os.
Local Open Scope io_scope.

Record HelmOptions : Type := mkOpts {
  DryRun : bool;
  Namespace : string;
  Values : list string;
  Version : string;
  ChartRepo : string
}.

(** [output] is always [os.Stdout]: the record keeps the flag only. *)
Record HelmCommand : Type := mkHelm {
  dryRun : bool
}.

Definition NewHelmCommand (dryRun : bool) : HelmCommand :=
  {| dryRun := dryRun |}.

Section Run.

Variable run : list (list string) -> list string -> ProcResult.

Definition Execute (h : HelmCommand) (args : list string) : IO (option string) :=
  if dryRun h then
    Print ("[DRY-RUN] helm " ++ Str.Join args " " ++ Str.nl) ;;;
    ret None
  else
    err <- RunInherit run ("helm" :: args) ;;
    match err with
    | Some e => ret (Some ("helm command failed: " ++ e))
    | None => ret None
    end.

Definition ExecuteOutput (h : HelmCommand) (args : list string)
  : IO (string * option string) :=
  if dryRun h then
    Print ("[DRY-RUN] helm " ++ Str.Join args " " ++ Str.nl) ;;;
    ret ("", None)
  else
    r <- Output run ("helm" :: args) ;;
    match snd r with
    | Some e => ret ("", Some ("helm command failed: " ++ e))
    | None => ret (fst r, None)
    end.

Definition RepoAdd (h : HelmCommand) (name url : string) : IO (option string) :=
  Execute h ["repo"; "add"; name; url; "--force-update"].

Definition RepoUpdate (h : HelmCommand) : IO (option string) :=
  Execute h ["repo"; "update"].

Definition install_args (releaseName chart namespace : string)
           (opts : HelmOptions) : list string :=
  let args := ["upgrade"; "--install"; releaseName; chart] in
  let args := (args ++ ["-n"; namespace; "--create-namespace"])%list in
  let args := if String.eqb (Version opts) "" then args
              else (args ++ ["--version"; Version opts])%list in
  let args := fold_left (fun acc v => (acc ++ ["-f"; v])%list) (Values opts) args in
  if DryRun opts then (args ++ ["--dry-run"; "--debug"])%list else args.

Definition Install (h : HelmCommand) (releaseName chart namespace : string)
           (opts : HelmOptions) : IO (option string) :=
  Execute h (install_args releaseName chart namespace opts).

Definition Uninstall (h : HelmCommand) (releaseName namespace : string)
  : IO (option string) :=
  if dryRun h then
    Print ("[DRY-RUN] helm uninstall " ++ releaseName ++ " -n " ++ namespace
           ++ Str.nl) ;;;
    ret None
  else
    RunInherit run ["helm"; "uninstall"; releaseName; "-n"; namespace].

Definition GetValues (h : HelmCommand) (releaseName namespace : string) :=
  ExecuteOutput h ["get"; "values"; releaseName; "-n"; namespace].

Definition List (h : HelmCommand) (namespace : string) :=
  ExecuteOutput h ["list"; "-n"; namespace].

(** The method [Version]; the name is taken by the [HelmOptions] field. *)
Definition Version_ (h : HelmCommand) := ExecuteOutput h ["version"; "--short"].

Definition ValidateHelmInstalled : IO (option string) :=
  err <- RunQuiet run ["helm"; "version"; "--short"] ;;
  match err with
  | Some e => ret (Some ("helm is not installed or not in PATH: " ++ e))
  | None => ret None
  end.

End Run.

End helm.

(* ===================================================================== *)
(** * [cmd/install.go]: the cleanup pass *)
(* ===================================================================== *)

Module config.

Record Config : Type := mkConfig {
  NamespaceGateway : string;
  NamespaceAI : string;
  SkipClean : bool;
  DryRun : bool;
  ValuesExtra : list string
}.

End config.

Module install.
Import os config.
Local Open Scope io_scope.

Section Run.

Variable run : list (list string) -> list string -> ProcResult.

Definition releases (cfg : Config) : list (string * string) :=
  [ ("eg", NamespaceGateway cfg);
    ("aieg-crd", NamespaceAI cfg);
    ("aieg", NamespaceAI cfg) ].

(** The body of the [for _, r := range releases] loop. *)
Fixpoint uninstall_each (helmCmd : helm.HelmCommand)
         (rs : list (string * string)) : IO unit :=
  match rs with
  | [] => ret tt
  | (name, namespace) :: rest =>
      err <- helm.Uninstall run helmCmd name namespace ;;
      match err with
      | Some _ => Print ("  Note: " ++ name ++ " was not previously installed"
                         ++ Str.nl)
      | None => ret tt
      end ;;;
      uninstall_each helmCmd rest
  end.

Definition cleanPreviousInstall (cfg : Config) (isDryRun : bool)
  : IO (option string) :=
  let helmCmd := helm.NewHelmCommand isDryRun in
  uninstall_each helmCmd (releases cfg) ;;;
  ret None.

End Run.

End install.

(* ===================================================================== *)
(** * [cmd/doctor.go]: the health checker *)
(* ===================================================================== *)

Module doctor.
Import os.
Local Open Scope io_scope.

Section Run.

Variable run : list (list string) -> list string -> ProcResult.

(** [exec.LookPath]: the error, [None] when the executable is found. *)
Variable LookPath : string -> option string.

Definition checkKubectl : IO bool :=
  Print "🔍 kubectl:            " ;;;
  match LookPath "kubectl" with
  | Some _ =>
      Println "❌ NOT FOUND" ;;;
      Println "   Install kubectl: https://kubernetes.io/docs/tasks/tools/" ;;;
      ret false
  | None =>
      r <- Output run ["kubectl"; "version"; "--client"; "--short"] ;;
      match snd r with
      | Some _ => Println "❌ FAILED" ;;; ret false
      | None => Print ("✅ " ++ fst r) ;;; ret true
      end
  end.

Definition checkHelm : IO bool :=
  Print "🔍 Helm:               " ;;;
  err <- helm.ValidateHelmInstalled run ;;
  match err with
  | Some _ =>
      Println "❌ NOT FOUND" ;;;
      Println "   Install Helm: https://helm.sh/docs/intro/install/" ;;;
      ret false
  | None =>
      let helmCmd := helm.NewHelmCommand false in
      r <- helm.Version_ run helmCmd ;;
      match snd r with
      | Some _ => Println "❌ FAILED" ;;; ret false
      | None => Print ("✅ " ++ fst r) ;;; ret true
      end
  end.

Definition checkKubernetesConnection : IO bool :=
  Print "🔍 Kubernetes cluster: " ;;;
  err <- RunQuiet run ["kubectl"; "cluster-info"] ;;
  match err with
  | Some _ =>
      Println "❌ NOT CONNECTED" ;;;
      Println "   Configure your kubeconfig or check cluster connectivity" ;;;
      ret false
  | None => Println "✅ CONNECTED" ;;; ret true
  end.

Definition checkNamespace (namespace : string) : IO bool :=
  Print ("🔍 Namespace '" ++ namespace ++ "':    ") ;;;
  err <- RunQuiet run ["kubectl"; "get"; "namespace"; namespace] ;;
  match err with
  | Some _ =>
      Println "❌ NOT FOUND" ;;;
      Print ("   Will be created during installation" ++ Str.nl) ;;;
      ret true
  | None => Println "✅ EXISTS" ;;; ret true
  end.

Definition checkRedis (namespace : string) : IO bool :=
  Print "🔍 Redis:              " ;;;
  r <- Output run ["kubectl"; "get"; "pod"; "-n"; namespace;
                   "-l"; "app=redis"; "-o";
                   "jsonpath={.items[0].metadata.name}"] ;;
  match snd r with
  | Some _ => ret false
  | None =>
      if (String.length (fst r) =? 0)%nat then ret false
      else Print ("✅ Pod: " ++ fst r ++ Str.nl) ;;; ret true
  end.

(** [namespaceGW] and [namespaceAI] are what viper holds under
    [namespace_gateway] and [namespace_ai]. *)
Definition runDoctor (namespaceGW namespaceAI : string) : IO (option string) :=
  Println "🏥 System Health Check" ;;;
  Println "" ;;;
  let allHealthy := true in
  k <- checkKubectl ;;
  let allHealthy := if negb k then false else allHealthy in
  h <- checkHelm ;;
  let allHealthy := if negb h then false else allHealthy in
  c <- checkKubernetesConnection ;;
  let allHealthy := if negb c then false else allHealthy in
  g <- checkNamespace namespaceGW ;;
  let allHealthy := if negb g then false else allHealthy in
  a <- checkNamespace namespaceAI ;;
  let allHealthy := if negb a then false else allHealthy in
  r <- checkRedis namespaceAI ;;
  (if negb r
   then Println "⚠️  Redis:              Not installed (optional - install with --with-redis if needed)"
   else ret tt) ;;;
  Println "" ;;;
  if allHealthy then
    Println "✅ All checks passed! You're ready to install Envoy AI Gateway." ;;;
    ret None
  else
    Println "❌ Some checks failed. Please address the issues above." ;;;
    ret (Some "system health check failed").

End Run.

End doctor.

(* ===================================================================== *)
(** * The chart staging scripts: what they share *)
(* ===================================================================== *)

(** The release document as [jq] reads it.  [text] is the document itself,
    the word the scripts pass around; the other fields are what the [jq]
    filters of the scripts project out of it.  Asset names and URLs are JSON
    strings without line breaks, so that [head -n1] keeps a whole URL. *)
Module jq.

Record asset : Type := mkAsset {
  name : string;
  browser_download_url : string
}.

Record release : Type := mkRelease {
  text : string;
  tag_name : option string;
  assets : list asset;
  repository_full_name : option string
}.

(** [jq -r '.x']: a missing or null field prints [null]. *)
Definition raw (field : option string) : string :=
  match field with Some s => s | None => "null" end.

(** [jq -r '.x // empty']: a missing or null field prints nothing. *)
Definition raw_or_empty (field : option string) : string :=
  match field with Some s => s | None => "" end.

(** [... | select(p) | .browser_download_url] piped into [head -n1]:
    the URL of the first selected asset, nothing when none is selected. *)
Definition first_url (p : asset -> bool) (r : release) : string :=
  match filter p (assets r) with
  | [] => ""
  | a :: _ => browser_download_url a
  end.

End jq.

(** The shell as the scripts use it.

    Both scripts log through [tee -a "$LOG_FILE"], which also writes the
    line to standard output, so a caller that captures a function's output
    with [$(...)] receives the function's log lines in front of the value.
    The embedding hands the caller the value alone and keeps the log lines
    in [log] (without their time stamp): the properties below are about
    what each function computes from the release document and the URL it
    is given, not about that plumbing. *)
Module sh.

(** How a function ends: it returns a status to its caller, having printed
    [value], or [exit] ends the shell that runs it. *)
Inductive outcome (A : Type) : Type :=
| Return (status : nat) (value : A)
| Exit (code : nat).
Arguments Return {A} status value.
Arguments Exit {A} code.

Inductive level : Type := INFO | WARN | ERROR.

(** What one [curl -f -o FILE URL] process did.  [Transferred]: exit 0, the
    body is in the file.  [HttpError]: the server answered with an error
    status, [-f] makes curl write nothing and exit 22.  [ConnectionError]:
    the transport failed; what had arrived (if anything) is in the file. *)
Inductive curl_outcome : Type :=
| Transferred (body : string)
| HttpError (status : nat)
| ConnectionError (received : option string).

Record World : Type := mkWorld {
  files : string -> option string;
  curl_calls : nat;
  log : list (level * string);
  slept : list nat
}.

Definition say (l : level) (message : string) (w : World) : World :=
  {| files := files w; curl_calls := curl_calls w;
     log := log w ++ [(l, message)]; slept := slept w |}.

Definition sleep (seconds : nat) (w : World) : World :=
  {| files := files w; curl_calls := curl_calls w;
     log := log w; slept := slept w ++ [seconds] |}.

Definition write (path content : string) (w : World) : World :=
  {| files := fun p => if String.eqb p path then Some content else files w p;
     curl_calls := curl_calls w; log := log w; slept := slept w |}.

Definition count_curl (w : World) : World :=
  {| files := files w; curl_calls := S (curl_calls w);
     log := log w; slept := slept w |}.

Section Curl.

(** The host: what the n-th curl process of the run (counting from 0)
    meets when it asks for a URL. *)
Variable host : nat -> string -> curl_outcome.

(** [curl -f ... -o "$output_file" "$url"] as an [if] condition. *)
Definition curl_fo (url output_file : string) (w : World) : bool * World :=
  let w' := count_curl w in
  match host (curl_calls w) url with
  | Transferred body => (true, write output_file body w')
  | HttpError _ => (false, w')
  | ConnectionError None => (false, w')
  | ConnectionError (Some part) => (false, write output_file part w')
  end.

End Curl.

(** [((n++))]: the variable is incremented, and the command's status is 1
    when the expression's value, the old [n], is 0. *)
Definition post_increment (n : nat) : nat * nat :=
  (S n, if (n =? 0)%nat then 1 else 0).

End sh.

(* ===================================================================== *)
(** * [scripts/merge-charts.sh]: the keyword-matching staging script *)
(* ===================================================================== *)

Module merge_charts.
Import sh.

Definition info (message : string) (w : World) : World := say INFO message w.
Definition warn (message : string) (w : World) : World := say WARN message w.

(** [error] logs and then runs [exit 1]. *)
Definition error {A : Type} (message : string) (w : World) : outcome A * World :=
  (Exit 1, say ERROR message w).

(** The alternatives of the pattern [helm|chart|tgz|tar\.gz] given to
    [test] with the flag [i]. *)
Definition asset_pattern : list string := ["helm"; "chart"; "tgz"; "tar.gz"].

Definition test_i (alternatives : list string) (word : string) : bool :=
  existsb (fun alt => Str.Contains (Str.ToLower word) alt) alternatives.

(** [$1], [$2] and [$3] are the positional parameters; [$1] is the release
    document. *)
Definition find_helm_chart_asset (p1 : jq.release) (p2 p3 : string) (w : World)
  : outcome string * World :=
  let release_json := p1 in
  let url := jq.first_url (fun a => test_i asset_pattern (jq.name a)) release_json in
  if String.eqb url "" || String.eqb url "null" then
    let w := warn "No chart asset found, attempting fallback to repository archive" w in
    let tag := jq.raw (jq.tag_name release_json) in
    if String.eqb tag "" || String.eqb tag "null" then
      error "No tag found in release" w
    else
      (Return 0 ("https://github.com/" ++ jq.text p1 ++ "/" ++ p2
                 ++ "/archive/refs/tags/" ++ tag ++ ".tar.gz"), w)
  else (Return 0 url, w).

(** The file name [process_upstream] gives the download. *)
Definition process_upstream_filename (owner repo tag : string) : string :=
  owner ++ "-" ++ repo ++ "-" ++ tag ++ ".tgz".

Definition max_retries : nat := 3.

Section Script.

Variable host : nat -> string -> curl_outcome.

(** [file -b --mime-type] on a file's content. *)
Variable file_mime : string -> string.

Definition validate_download (url output_file : string) (w : World)
  : outcome unit * World :=
  match files w output_file with
  | None => error ("Download file not created: " ++ output_file) w
  | Some content =>
      let file_size := String.length content in
      if (file_size <=? 0)%nat then
        error ("Downloaded file is empty: " ++ output_file) w
      else
        let mime_type := file_mime content in
        let w :=
          if negb (String.eqb mime_type "application/gzip")
             && negb (String.eqb mime_type "application/x-tar")
             && negb (Str.Contains mime_type "compressed")
          then warn ("Unexpected MIME type: " ++ mime_type ++ " for " ++ url) w
          else w in
        (Return 0 tt,
         info ("Validated download: " ++ output_file ++ " (size: "
               ++ Str.of_nat file_size ++ " bytes)") w)
  end.

(** The [while [[ $retry_count -lt $max_retries ]]] loop; [remaining] is
    [max_retries - retry_count], which the loop test compares with 0. *)
Fixpoint download_loop (remaining retry_count : nat)
         (url output_file : string) (w : World) : outcome unit * World :=
  match remaining with
  | 0 =>
      error ("Failed to download after " ++ Str.of_nat max_retries
             ++ " attempts: " ++ url) w
  | S remaining' =>
      let '(ok, w) := curl_fo host url output_file w in
      if ok then
        match validate_download url output_file w with
        | (Exit code, w) => (Exit code, w)
        | (Return _ _, w) => (Return 0 tt, w)
        end
      else
        let retry_count := retry_count + 1 in
        let w :=
          if (retry_count <? max_retries)%nat then
            sleep 2 (warn ("Download failed, retrying (" ++ Str.of_nat retry_count
                           ++ "/" ++ Str.of_nat max_retries ++ ")") w)
          else w in
        download_loop remaining' retry_count url output_file w
  end.

Definition download_file (url output_file : string) (w : World)
  : outcome unit * World :=
  let retry_count := 0 in
  let w := info ("Downloading: " ++ url) w in
  download_loop (max_retries - retry_count) retry_count url output_file w.

End Script.

(** ** [main] *)

Definition upstreams : list string :=
  [ "envoyproxy/gateway";
    "envoyproxy/ai-gateway-helm";
    "envoyproxy/ai-gateway-crds-helm";
    "envoyproxy/ai-gateway" ].

(** The variables of [main], with the list of upstreams that were handed to
    [process_upstream]. *)
Record MainState : Type := mkMain {
  processed_count : nat;
  failed_count : nat;
  invoked : list (string * string);
  lines : list (level * string)
}.

Definition tell (l : level) (message : string) (st : MainState) : MainState :=
  {| processed_count := processed_count st; failed_count := failed_count st;
     invoked := invoked st; lines := lines st ++ [(l, message)] |}.

Section Main.

(** [set -e], which line 2 of the script turns on. *)
Variable errexit : bool.

(** Whether [process_upstream "$owner" "$repo" 2>&1 | tee -a "$LOG_FILE"]
    succeeds as a pipeline (the script runs under [pipefail]). *)
Variable process_upstream : string -> string -> bool.

(** [validate_tools]: the first required tool that is missing, if any. *)
Variable missing_tool : option string.

(** [update_values_file]: whether the values file is there, and whether
    the Python step that rewrites it succeeds. *)
Variable values_file_present : bool.
Variable values_rewritten : bool.

Variable VALUES_FILE : string.

Fixpoint main_loop (ups : list string) (st : MainState) : outcome unit * MainState :=
  match ups with
  | [] => (Return 0 tt, st)
  | upstream :: rest =>
      let '(owner, repo) := Str.read_owner_repo upstream in
      let st := {| processed_count := processed_count st;
                   failed_count := failed_count st;
                   invoked := invoked st ++ [(owner, repo)];
                   lines := lines st |} in
      if process_upstream owner repo then
        let '(n, status) := post_increment (processed_count st) in
        let st := {| processed_count := n; failed_count := failed_count st;
                     invoked := invoked st; lines := lines st |} in
        if errexit && negb (status =? 0)%nat then (Exit status, st)
        else main_loop rest st
      else
        let '(n, status) := post_increment (failed_count st) in
        let st := {| processed_count := processed_count st; failed_count := n;
                     invoked := invoked st; lines := lines st |} in
        if errexit && negb (status =? 0)%nat then (Exit status, st)
        else main_loop rest (tell WARN ("Failed to process " ++ upstream) st)
  end.

Definition main_over (ups : list string) : outcome unit * MainState :=
  let st := {| processed_count := 0; failed_count := 0;
               invoked := []; lines := [] |} in
  let st := tell INFO "Starting chart merge process" st in
  match missing_tool with
  | Some tool => (Exit 1, tell ERROR ("Required tool not found: " ++ tool) st)
  | None =>
      let st := tell INFO "All required tools available" st in
      match main_loop ups st with
      | (Exit code, st) => (Exit code, st)
      | (Return _ _, st) =>
          if negb values_file_present then
            (Exit 1, tell ERROR ("Values file not found: " ++ VALUES_FILE) st)
          else
            let st := tell INFO "Updating values file with generated timestamp" st in
            if errexit && negb values_rewritten then (Exit 1, st)
            else
              let st := tell INFO ("Chart merge completed: "
                                   ++ Str.of_nat (processed_count st) ++ " successful, "
                                   ++ Str.of_nat (failed_count st) ++ " failed") st in
              if (0 <? failed_count st)%nat then
                (Exit 1, tell ERROR "Some upstream repos failed to process" st)
              else
                (Return 0 tt, tell INFO "All upstream charts successfully merged" st)
      end
  end.

End Main.

(** The script: [set -euo pipefail], then [main "$@"]; its exit status. *)
Definition script_over (process_upstream : string -> string -> bool)
           (missing_tool : option string)
           (values_file_present values_rewritten : bool) (VALUES_FILE : string)
           (ups : list string) : nat * MainState :=
  match main_over true process_upstream missing_tool
                  values_file_present values_rewritten VALUES_FILE ups with
  | (Exit code, st) => (code, st)
  | (Return status _, st) => (status, st)
  end.

Definition script (process_upstream : string -> string -> bool)
           (missing_tool : option string)
           (values_file_present values_rewritten : bool) (VALUES_FILE : string)
  : nat * MainState :=
  script_over process_upstream missing_tool
              values_file_present values_rewritten VALUES_FILE upstreams.

End merge_charts.

(* ===================================================================== *)
(** * The second staging script: selection by [.tgz] suffix, fallback from
      the release document *)
(* ===================================================================== *)

Module merge_charts_tgz.
Import sh.

Definition info (message : string) (w : World) : World := say INFO message w.
Definition warn (message : string) (w : World) : World := say WARN message w.

(** Here [error] only logs; the callers [return 1] themselves. *)
Definition error (message : string) (w : World) : World := say ERROR message w.

Definition MAX_RETRIES : nat := 3.

Definition REPOS : list string :=
  [ "envoyproxy/gateway";
    "envoyproxy/ai-gateway-helm";
    "envoyproxy/ai-gateway-crds-helm" ].

Definition empty_or_null (word : string) : bool :=
  String.eqb word "" || String.eqb word "null".

Definition get_download_url (api_json : jq.release) (repo_key : string) (w : World)
  : outcome string * World :=
  let tag_name := jq.raw_or_empty (jq.tag_name api_json) in
  if empty_or_null tag_name then
    (Return 1 "", error ("No tag_name in API response for " ++ repo_key
                         ++ " - skipping") w)
  else
    let w := info ("Extracted tag_name for " ++ repo_key ++ ": " ++ tag_name) w in
    let tgz_url :=
      jq.first_url (fun a => Str.HasSuffix (jq.browser_download_url a) ".tgz")
                   api_json in
    if negb (String.eqb tgz_url "") && negb (String.eqb tgz_url "null") then
      (Return 0 tgz_url, w)
    else
      let owner_repo := jq.raw_or_empty (jq.repository_full_name api_json) in
      if empty_or_null owner_repo then
        (Return 1 "", error ("Cannot determine repository name from API response for "
                             ++ repo_key ++ " - skipping") w)
      else
        (Return 0 ("https://github.com/" ++ owner_repo ++ "/archive/refs/tags/"
                   ++ tag_name ++ ".tar.gz"), w).

(** Lines 201 to 207 of [process_repo]: the local file name. *)
Definition derive_filename (owner_repo tag_name download_url : string) : string :=
  let repo_name := Str.sed_strip_to_last_slash owner_repo in
  let filename := repo_name ++ "-" ++ tag_name ++ ".tgz" in
  if Str.HasSuffix download_url ".tar.gz"
  then repo_name ++ "-" ++ tag_name ++ ".tar.gz"
  else filename.

(** [process_repo] from the tag check to the file name: the download URL
    and the file name it will be saved under. *)
Definition resolve_artifact (owner_repo : string) (api_json : jq.release) (w : World)
  : outcome (string * string) * World :=
  let tag_name := jq.raw_or_empty (jq.tag_name api_json) in
  if empty_or_null tag_name then
    (Return 1 ("", ""), error ("No valid tag_name for " ++ owner_repo ++ " - skipping") w)
  else
    match get_download_url api_json owner_repo w with
    | (Return 0 download_url, w) =>
        if String.eqb download_url "" then
          (Return 1 ("", ""),
           error ("No valid download URL for " ++ owner_repo ++ " - skipping") w)
        else
          (Return 0 (download_url, derive_filename owner_repo tag_name download_url), w)
    | (Return _ _, w) => (Return 1 ("", ""), w)
    | (Exit code, w) => (Exit code, w)
    end.

Section Script.

Variable host : nat -> string -> curl_outcome.

(** [fetch_latest_release]: the release document, [None] when the
    function returns 1. *)
Variable fetch_latest_release : string -> option jq.release.

Variable OUTPUT_DIR : string.

(** [[[ -f "$output_file" ]] && [[ -s "$output_file" ]]]. *)
Definition exists_nonempty (output_file : string) (w : World) : bool :=
  match files w output_file with
  | Some content => (0 <? String.length content)%nat
  | None => false
  end.

(** The [for attempt in 1 2 3] loop of [download_file].  Here curl runs with
    [--retry 3 --retry-all-errors]: one curl process may repeat its request,
    and [host n url] is what the n-th process ends with. *)
Fixpoint download_attempts (attempts : list nat) (url output_file : string)
         (w : World) : outcome unit * World :=
  match attempts with
  | [] => (Return 1 tt, w)
  | attempt :: rest =>
      let '(ok, w) := curl_fo host url output_file w in
      if ok && exists_nonempty output_file w then
        (Return 0 tt,
         info ("Successfully downloaded: "
               ++ Str.sed_strip_to_last_slash output_file) w)
      else if (attempt <? MAX_RETRIES)%nat then
        download_attempts rest url output_file
          (sleep 2 (warn ("Download attempt " ++ Str.of_nat attempt ++ "/"
                          ++ Str.of_nat MAX_RETRIES ++ " failed for " ++ url
                          ++ " - retrying...") w))
      else
        (Return 1 tt,
         error ("Failed to download " ++ url ++ " after "
                ++ Str.of_nat MAX_RETRIES ++ " attempts") w)
  end.

Definition download_file (url output_file : string) (w : World)
  : outcome unit * World :=
  download_attempts [1; 2; 3] url output_file (info ("Downloading: " ++ url) w).

Definition process_repo (owner_repo : string) (w : World) : outcome unit * World :=
  let w := info ("Processing repository: " ++ owner_repo) w in
  match fetch_latest_release owner_repo with
  | None => (Return 1 tt, w)
  | Some api_json =>
      match resolve_artifact owner_repo api_json w with
      | (Return 0 (download_url, filename), w) =>
          let output_path := OUTPUT_DIR ++ "/" ++ filename in
          match download_file download_url output_path w with
          | (Return 0 _, w) => (Return 0 tt, info ("Saved: " ++ filename) w)
          | (Return _ _, w) => (Return 1 tt, w)
          | (Exit code, w) => (Exit code, w)
          end
      | (Return _ _, w) => (Return 1 tt, w)
      | (Exit code, w) => (Exit code, w)
      end
  end.

End Script.

(** ** [main] *)

Record MainState : Type := mkMain {
  processed_count : nat;
  failed_count : nat;
  skipped_count : nat;
  invoked : list string;
  lines : list (level * string)
}.

Definition tell (l : level) (message : string) (st : MainState) : MainState :=
  {| processed_count := processed_count st; failed_count := failed_count st;
     skipped_count := skipped_count st;
     invoked := invoked st; lines := lines st ++ [(l, message)] |}.

Section Main.

(** [set -e], which line 2 of the script turns on. *)
Variable errexit : bool.

(** Whether [process_repo "$owner_repo"] returns 0. *)
Variable process_repo_ok : string -> bool.

Variable missing_tool : option string.
Variable values_updated : bool.

(** The files found under the output directory, one [ls -lh] line each. *)
Variable artifacts : list string.

Variable OUTPUT_DIR VALUES_FILE : string.

Fixpoint main_loop (repos : list string) (st : MainState) : outcome unit * MainState :=
  match repos with
  | [] => (Return 0 tt, st)
  | owner_repo :: rest =>
      let st := {| processed_count := processed_count st;
                   failed_count := failed_count st;
                   skipped_count := skipped_count st;
                   invoked := invoked st ++ [owner_repo];
                   lines := lines st |} in
      if process_repo_ok owner_repo then
        let '(n, status) := post_increment (processed_count st) in
        let st := {| processed_count := n; failed_count := failed_count st;
                     skipped_count := skipped_count st;
                     invoked := invoked st; lines := lines st |} in
        if errexit && negb (status =? 0)%nat then (Exit status, st)
        else main_loop rest st
      else
        let '(n, status) := post_increment (failed_count st) in
        let st := {| processed_count := processed_count st; failed_count := n;
                     skipped_count := skipped_count st;
                     invoked := invoked st; lines := lines st |} in
        if errexit && negb (status =? 0)%nat then (Exit status, st)
        else
          let '(k, status) := post_increment (skipped_count st) in
          let st := {| processed_count := processed_count st;
                       failed_count := failed_count st;
                       skipped_count := k;
                       invoked := invoked st; lines := lines st |} in
          if errexit && negb (status =? 0)%nat then (Exit status, st)
          else main_loop rest st
  end.

Definition main_over (repos : list string) : outcome unit * MainState :=
  let st := {| processed_count := 0; failed_count := 0; skipped_count := 0;
               invoked := []; lines := [] |} in
  let st := tell INFO "=== Envoy AI Unified Installer - Merge Charts Script ===" st in
  let st := tell INFO ("Output directory: " ++ OUTPUT_DIR) st in
  let st := tell INFO ("Values file: " ++ VALUES_FILE) st in
  match missing_tool with
  | Some tool =>
      let st := tell ERROR ("Required tool not found: " ++ tool) st in
      (Return 1 tt, tell ERROR "Tool validation failed" st)
  | None =>
      let st := tell INFO "All required tools available" st in
      match main_loop repos st with
      | (Exit code, st) => (Exit code, st)
      | (Return _ _, st) =>
          let st := if values_updated then st
                    else tell WARN "Failed to update values.yaml" st in
          let st := tell INFO "=== Summary ===" st in
          let st := tell INFO ("Processed: " ++ Str.of_nat (processed_count st)
                               ++ " successful, " ++ Str.of_nat (skipped_count st)
                               ++ " skipped") st in
          let st := tell INFO ("Total artifacts downloaded: "
                               ++ Str.of_nat (List.length artifacts)) st in
          let st := fold_left (fun acc line => tell INFO ("  " ++ line) acc)
                              artifacts st in
          let st := if (0 <? skipped_count st)%nat
                    then tell WARN "Some repositories were skipped - check logs above" st
                    else st in
          (Return 0 tt, tell INFO "Script completed" st)
      end
  end.

End Main.

(** The script: [set -euo pipefail], then [main "$@"]; its exit status. *)
Definition script (process_repo_ok : string -> bool)
           (missing_tool : option string) (values_updated : bool)
           (artifacts : list string) (OUTPUT_DIR VALUES_FILE : string)
  : nat * MainState :=
  match main_over true process_repo_ok missing_tool values_updated artifacts
                  OUTPUT_DIR VALUES_FILE REPOS with
  | (Exit code, st) => (code, st)
  | (Return status _, st) => (status, st)
  end.

End merge_charts_tgz.

(* ===================================================================== *)
(** * [cmd/install.go]: the install steps *)
(* ===================================================================== *)

Module gostrings.

(** [strings.Split s sep] for a separator of one byte: the pieces between
    the separators, in order; the empty string gives one empty piece. *)
Fixpoint Split (s : string) (sep : ascii) : list string :=
  match s with
  | EmptyString => [EmptyString]
  | String c s' =>
      if Ascii.eqb c sep then EmptyString :: Split s' sep
      else match Split s' sep with
           | piece :: pieces => String c piece :: pieces
           | [] => [String c EmptyString]
           end
  end.

(** [%v] of a bool. *)
Definition of_bool (b : bool) : string := if b then "true" else "false".

End gostrings.

(** The installer's view of the network and of the temporary directory,
    around its view of standard output and child processes. *)
Module net.

(** What [http.Get] and the reading of the body give: no response at all,
    or a status with the bytes read and the error that ended the reading
    ([None] at the end of the body). *)
Inductive Response : Type :=
| GetError (err : string)
| Answer (status : nat) (read : string) (read_err : option string).

(** [gets]: the URLs requested so far.  [temps]: the temporary files
    created so far with their content, oldest first. *)
Record Env : Type := mkEnv {
  io : os.World;
  gets : list string;
  temps : list (string * string)
}.

Definition M (A : Type) : Type := Env -> A * Env.

Definition ret {A : Type} (a : A) : M A := fun e => (a, e).

Definition bind {A B : Type} (m : M A) (k : A -> M B) : M B :=
  fun e => let '(a, e') := m e in k a e'.

(** A computation on standard output and processes, run in place. *)
Definition lift {A : Type} (m : os.IO A) : M A :=
  fun e => let '(a, w) := m (io e) in
           (a, {| io := w; gets := gets e; temps := temps e |}).

Section Outside.

(** The answer to a request, after the requests of the history. *)
Variable http : list string -> string -> Response.

(** [os.CreateTemp]: the name of the new file, or the error, given the
    temporary files that exist. *)
Variable CreateTemp : list (string * string) -> string + string.

Definition Get (url : string) : M Response :=
  fun e => (http (gets e) url,
            {| io := io e; gets := gets e ++ [url]; temps := temps e |}).

Definition create_temp : M (string + string) :=
  fun e => match CreateTemp (temps e) with
           | inl name =>
               (inl name, {| io := io e; gets := gets e;
                             temps := temps e ++ [(name, "")] |})
           | inr err => (inr err, e)
           end.

(** [tmpFile.ReadFrom]: what was read is in the file. *)
Definition fill (name content : string) : M unit :=
  fun e => (tt, {| io := io e; gets := gets e;
                   temps := map (fun f => if String.eqb (fst f) name
                                          then (name, content) else f)
                                (temps e) |}).

End Outside.

End net.

Declare Scope net_scope.
Delimit Scope net_scope with net.
Notation "x <- m ;; k" := (net.bind m (fun x => k))
  (at level 61, m at next level, right associativity) : net_scope.
Notation "m ;;; k" := (net.bind m (fun _ => k))
  (at level 61, right associativity) : net_scope.

Module install_steps.
Import os config net.
Local Open Scope net_scope.

Definition official_values_url : string :=
  "https://raw.githubusercontent.com/envoyproxy/ai-gateway/main/manifests/envoy-gateway-values.yaml".

Section Run.

Variable run : list (list string) -> list string -> ProcResult.
Variable http : list string -> string -> Response.
Variable CreateTemp : list (string * string) -> string + string.

(** [strings.TrimSpace]. *)
Variable TrimSpace : string -> string.

(** The flags [--values-extra] and [--with-redis]. *)
Variable valuesExtra : string.
Variable withRedis : bool.

Definition fetchRemoteValuesFile (url : string) : M (string * option string) :=
  resp <- Get http url ;;
  match resp with
  | GetError err => ret ("", Some err)
  | Answer status read read_err =>
      if negb (status =? 200)%nat then
        ret ("", Some ("failed to fetch remote file: HTTP " ++ Str.of_nat status))
      else
        tmp <- create_temp CreateTemp ;;
        match tmp with
        | inr err => ret ("", Some err)
        | inl name =>
            fill name read ;;;
            match read_err with
            | Some err => ret ("", Some err)
            | None => ret (name, None)
            end
        end
  end.

(** The loop [for _, v := range extraValues]. *)
Fixpoint append_trimmed (extraValues : list string) (values : list string)
  : list string :=
  match extraValues with
  | [] => values
  | v :: rest =>
      let v := TrimSpace v in
      if negb (String.eqb v "") then append_trimmed rest (values ++ [v])
      else append_trimmed rest values
  end.

(** [if valuesExtra != "" { ... }]. *)
Definition add_values_extra (values : list string) : list string :=
  if negb (String.eqb valuesExtra "") then
    append_trimmed (gostrings.Split valuesExtra ",") values
  else values.

Definition installEnvoyGateway (helmCmd : helm.HelmCommand) (cfg : Config)
  : M (option string) :=
  err <- lift (helm.RepoAdd run helmCmd "envoyproxy" "oci://docker.io/envoyproxy") ;;
  match err with
  | Some e => ret (Some e)
  | None =>
      err <- lift (helm.RepoUpdate run helmCmd) ;;
      match err with
      | Some e => ret (Some e)
      | None =>
          fetched <- fetchRemoteValuesFile official_values_url ;;
          valuesFile <-
            match snd fetched with
            | Some e =>
                lift (Print ("Warning: Could not fetch official values file: "
                             ++ e ++ Str.nl)) ;;;
                ret ""
            | None => ret (fst fetched)
            end ;;
          let values := [] in
          let values := if negb (String.eqb valuesFile "")
                        then (values ++ [valuesFile])%list else values in
          let values := add_values_extra values in
          let opts := {| helm.DryRun := false;
                         helm.Namespace := NamespaceGateway cfg;
                         helm.Values := values;
                         helm.Version := "v0.0.0-latest";
                         helm.ChartRepo := "" |} in
          lift (helm.Install run helmCmd "eg" "envoyproxy/gateway-helm"
                             (NamespaceGateway cfg) opts)
      end
  end.

Definition installAIGatewayCRDs (helmCmd : helm.HelmCommand) (cfg : Config)
  : M (option string) :=
  err <- lift (helm.RepoAdd run helmCmd "envoyproxy-ai" "oci://docker.io/envoyproxy") ;;
  match err with
  | Some e => ret (Some e)
  | None =>
      err <- lift (helm.RepoUpdate run helmCmd) ;;
      match err with
      | Some e => ret (Some e)
      | None =>
          let opts := {| helm.DryRun := false;
                         helm.Namespace := NamespaceAI cfg;
                         helm.Values := [];
                         helm.Version := "v0.0.0-latest";
                         helm.ChartRepo := "" |} in
          lift (helm.Install run helmCmd "aieg-crd" "envoyproxy/ai-gateway-crds-helm"
                             (NamespaceAI cfg) opts)
      end
  end.

Definition installAIGatewayController (helmCmd : helm.HelmCommand) (cfg : Config)
  : M (option string) :=
  err <- lift (helm.RepoAdd run helmCmd "envoyproxy-ai" "oci://docker.io/envoyproxy") ;;
  match err with
  | Some e => ret (Some e)
  | None =>
      err <- lift (helm.RepoUpdate run helmCmd) ;;
      match err with
      | Some e => ret (Some e)
      | None =>
          let values := [] in
          let values := add_values_extra values in
          let opts := {| helm.DryRun := false;
                         helm.Namespace := NamespaceAI cfg;
                         helm.Values := values;
                         helm.Version := "v0.0.0-latest";
                         helm.ChartRepo := "" |} in
          lift (helm.Install run helmCmd "aieg" "envoyproxy/ai-gateway-helm"
                             (NamespaceAI cfg) opts)
      end
  end.

Definition installRedis (helmCmd : helm.HelmCommand) (cfg : Config)
  : M (option string) :=
  err <- lift (helm.RepoAdd run helmCmd "bitnami" "https://charts.bitnami.com/bitnami") ;;
  match err with
  | Some e => ret (Some e)
  | None =>
      err <- lift (helm.RepoUpdate run helmCmd) ;;
      match err with
      | Some e => ret (Some e)
      | None =>
          let opts := {| helm.DryRun := false;
                         helm.Namespace := NamespaceAI cfg;
                         helm.Values := [];
                         helm.Version := "";
                         helm.ChartRepo := "" |} in
          lift (helm.Install run helmCmd "envoy-redis" "bitnami/redis"
                             (NamespaceAI cfg) opts)
      end
  end.

(** What [runInstall] does after the cleanup step. *)
Definition install_from_step2 (cfg : Config) (isDryRun : bool) : M (option string) :=
  let helmCmd := helm.NewHelmCommand isDryRun in
  lift (Println (Str.nl ++ "📋 Step 2/4: Installing Envoy Gateway...")) ;;;
  err <- installEnvoyGateway helmCmd cfg ;;
  match err with
  | Some e => ret (Some ("failed to install Envoy Gateway: " ++ e))
  | None =>
      lift (Println (Str.nl ++ "📋 Step 3/4: Installing Envoy AI Gateway CRDs...")) ;;;
      err <- installAIGatewayCRDs helmCmd cfg ;;
      match err with
      | Some e => ret (Some ("failed to install AI Gateway CRDs: " ++ e))
      | None =>
          lift (Println (Str.nl ++ "📋 Step 4/4: Installing Envoy AI Gateway controller...")) ;;;
          err <- installAIGatewayController helmCmd cfg ;;
          match err with
          | Some e => ret (Some ("failed to install AI Gateway controller: " ++ e))
          | None =>
              err <-
                (if withRedis then
                   lift (Println (Str.nl ++ "📦 Installing Redis for rate limiting...")) ;;;
                   installRedis helmCmd cfg
                 else ret None) ;;
              match err with
              | Some e => ret (Some ("failed to install Redis: " ++ e))
              | None =>
                  lift (Println (Str.nl ++ "✅ Installation complete!")) ;;;
                  (if isDryRun then
                     lift (Println "   This was a dry run. Use 'envoy-ai-installer install' without --dry-run to execute.")
                   else
                     lift (Print ("   Verify installation: kubectl get pods -n "
                                  ++ NamespaceGateway cfg ++ Str.nl))) ;;;
                  ret None
              end
          end
      end
  end.

(** [cfg] is what [config.Load] returns and [isDryRun] what viper holds
    under [dry_run]. *)
Definition runInstall (cfg : Config) (isDryRun : bool) : M (option string) :=
  lift (Println "🚀 Envoy AI Gateway Installer") ;;;
  lift (Print ("  Namespace (Gateway): " ++ NamespaceGateway cfg ++ Str.nl)) ;;;
  lift (Print ("  Namespace (AI):      " ++ NamespaceAI cfg ++ Str.nl)) ;;;
  lift (Print ("  Dry Run:             " ++ gostrings.of_bool isDryRun ++ Str.nl)) ;;;
  err <-
    (if negb (SkipClean cfg) then
       lift (Println (Str.nl ++ "📋 Step 1/4: Cleaning up previous installations...")) ;;;
       lift (install.cleanPreviousInstall run cfg isDryRun)
     else ret None) ;;
  match err with
  | Some e => ret (Some ("cleanup failed: " ++ e))
  | None => install_from_step2 cfg isDryRun
  end.

End Run.

End install_steps.

(* ===================================================================== *)
(** * [cmd/version.go] and [main.go]: version reporting *)
(* ===================================================================== *)

Module version_cmd.
Import os.
Local Open Scope io_scope.

(** The package variables [cliVersion], [gitCommit] and [buildTime]. *)
Record Vars : Type := mkVars {
  cliVersion : string;
  gitCommit : string;
  buildTime : string
}.

Definition initial : Vars :=
  {| cliVersion := "dev"; gitCommit := "unknown"; buildTime := "unknown" |}.

(** The third parameter is named [buildTime] too, so the assignment
    [buildTime = buildTime] assigns the parameter to itself and the package
    variable keeps its value. *)
Definition SetVersionInfo (version commit buildTime_parameter : string) (vars : Vars)
  : Vars :=
  {| cliVersion := version;
     gitCommit := commit;
     buildTime := buildTime vars |}.

Section Run.

Variable run : list (list string) -> list string -> ProcResult.
Variable client : string -> string -> github.RepositoryRelease + string.

(** The loop [for _, chart := range charts]. *)
Fixpoint print_charts (charts : list upstream.ChartRelease) : IO unit :=
  match charts with
  | [] => ret tt
  | chart :: rest =>
      Print ("  " ++ upstream.Owner chart ++ "/" ++ upstream.Repo chart ++ ":  "
             ++ upstream.Version chart ++ Str.nl) ;;;
      print_charts rest
  end.

Definition runVersion (vars : Vars) : IO (option string) :=
  Println "📦 envoy-ai-installer Version Information" ;;;
  Println "" ;;;
  Print ("  CLI Version:    " ++ cliVersion vars ++ Str.nl) ;;;
  Print ("  Git Commit:     " ++ gitCommit vars ++ Str.nl) ;;;
  Print ("  Build Time:     " ++ buildTime vars ++ Str.nl) ;;;
  Println "" ;;;
  let helmCmd := helm.NewHelmCommand false in
  r <- helm.Version_ run helmCmd ;;
  match snd r with
  | None => Print ("  Helm Version:   " ++ fst r)
  | Some _ => ret tt
  end ;;;
  Println (Str.nl ++ "📋 Upstream Component Versions") ;;;
  Println "" ;;;
  let '(charts, err) := upstream.GetUpstreamCharts client in
  match err with
  | Some e =>
      Print ("  ⚠️  Could not fetch upstream versions: " ++ e ++ Str.nl) ;;;
      ret None
  | None =>
      print_charts charts ;;;
      ret None
  end.

(** [main] up to the dispatch: the build's [version], [gitCommit] and
    [buildTime] are handed to [SetVersionInfo], then the version command
    runs. *)
Definition main_version (version commit buildTime_of_build : string)
  : IO (option string) :=
  runVersion (SetVersionInfo version commit buildTime_of_build initial).

End Run.

End version_cmd.

(* ===================================================================== *)
(** * The second staging script: [fetch_latest_release] *)
(* ===================================================================== *)

Module release_lookup.
Import sh merge_charts_tgz.

(** What one request to the release API gives: the status curl prints
    with [-w "%{http_code}"] ("000" when no response came), the body
    written to the response file, and what [jq] makes of it ([None] when
    it is not JSON). *)
Record api_answer : Type := mkAnswer {
  http_code : string;
  body : string;
  parsed : option jq.release
}.

Section Script.

Variable api : nat -> string -> api_answer.

Variable GITHUB_TOKEN : string.

(** [$(get_auth_headers)]: without a token the function logs a warning. *)
Definition get_auth_headers (w : World) : World :=
  if negb (String.eqb GITHUB_TOKEN "") then w
  else warn "GITHUB_TOKEN not set - using unauthenticated requests (rate limits apply)" w.

Definition curl_api (api_url : string) (w : World) : api_answer * World :=
  (api (curl_calls w) api_url, count_curl w).

(** How the [for attempt in 1 2 3] loop ends: with [break] after a 200,
    with [return 1], or by running out of attempts. *)
Inductive loop_end : Type :=
| Broke (answer : api_answer)
| Returned
| Finished.

Fixpoint lookup_attempts (attempts : list nat) (owner_repo api_url : string)
         (w : World) : loop_end * World :=
  match attempts with
  | [] => (Finished, w)
  | attempt :: rest =>
      let w := get_auth_headers w in
      let '(answer, w) := curl_api api_url w in
      let http_code := http_code answer in
      if String.eqb http_code "200" then (Broke answer, w)
      else if String.eqb http_code "403" then
        let w := warn ("Rate limited or forbidden (HTTP " ++ http_code ++ ") for "
                       ++ owner_repo ++ " - attempt " ++ Str.of_nat attempt ++ "/"
                       ++ Str.of_nat MAX_RETRIES) w in
        if (attempt <? MAX_RETRIES)%nat then
          lookup_attempts rest owner_repo api_url (sleep (2 ^ attempt) w)
        else
          (Returned, error ("Failed to fetch " ++ owner_repo ++ ": HTTP " ++ http_code
                            ++ " (rate limit exceeded)") w)
      else if String.eqb http_code "404" then
        (Returned, error ("Repository not found: " ++ owner_repo ++ " (HTTP 404)") w)
      else
        let w := warn ("HTTP " ++ http_code ++ " from " ++ api_url ++ " for "
                       ++ owner_repo ++ " - attempt " ++ Str.of_nat attempt ++ "/"
                       ++ Str.of_nat MAX_RETRIES) w in
        if (attempt <? MAX_RETRIES)%nat then
          lookup_attempts rest owner_repo api_url (sleep (2 ^ attempt) w)
        else
          (Returned, error ("Failed to fetch " ++ owner_repo ++ " after "
                            ++ Str.of_nat MAX_RETRIES ++ " attempts") w)
  end.

(** After a loop that ran out of attempts [api_response] is unset, and the
    script runs under [set -u]: expanding it ends the shell. *)
Definition fetch_latest_release (owner_repo : string) (w : World)
  : outcome (option jq.release) * World :=
  let api_url := "https://api.github.com/repos/" ++ owner_repo ++ "/releases/latest" in
  let w := info ("Fetching latest release from: " ++ api_url) w in
  match lookup_attempts [1; 2; 3] owner_repo api_url w with
  | (Returned, w) => (Return 1 None, w)
  | (Finished, w) => (Exit 1, w)
  | (Broke answer, w) =>
      match parsed answer with
      | None =>
          let w := error ("Invalid JSON response from GitHub API for " ++ owner_repo) w in
          let w := warn ("Raw response: " ++ String.substring 0 200 (body answer)) w in
          (Return 1 None, w)
      | Some api_response => (Return 0 (Some api_response), w)
      end
  end.

End Script.

End release_lookup.

(* ===================================================================== *)
(** * The words of the properties, and the cases they are tried on *)
(* ===================================================================== *)

(** ** For [pkg/upstream] *)

Module upstream_cases.
Import github upstream.

(** The asset's lower-cased name contains one of the keywords. *)
Definition matches_keyword (a : ReleaseAsset) : bool :=
  existsb (fun k => Str.Contains (Str.ToLower (GetName a)) k) keywords.

Definition sample_release : RepositoryRelease :=
  {| TagName := Some "v2.3.1";
     Assets := [ {| Name := Some "release-notes.txt";
                    BrowserDownloadURL := Some "https://x/notes.txt" |};
                 {| Name := Some "Widget-v2.3.1.TGZ";
                    BrowserDownloadURL := Some "https://x/widget.tgz" |};
                 {| Name := Some "widget-Chart.zip";
                    BrowserDownloadURL := Some "https://x/chart.zip" |} ] |}.

Definition tagless_release : RepositoryRelease :=
  {| TagName := None;
     Assets := [ {| Name := Some "widget-chart.tgz";
                    BrowserDownloadURL := Some "https://x/widget-chart.tgz" |} ] |}.

(** The releases of the upstreams whose lookup succeeds, in order. *)
Definition fetched (client : string -> string -> RepositoryRelease + string)
           (ups : list (string * string)) : list ChartRelease :=
  flat_map (fun up => match FetchLatestRelease client (fst up) (snd up) with
                      | inl chart => [chart]
                      | inr _ => []
                      end) ups.

(** The error texts of the upstreams whose lookup fails, in order. *)
Definition failed (client : string -> string -> RepositoryRelease + string)
           (ups : list (string * string)) : list string :=
  flat_map (fun up => match FetchLatestRelease client (fst up) (snd up) with
                      | inl _ => []
                      | inr err => [err]
                      end) ups.

Definition lookup_fails (client : string -> string -> RepositoryRelease + string)
           (up : string * string) : bool :=
  match FetchLatestRelease client (fst up) (snd up) with
  | inl _ => false
  | inr _ => true
  end.

End upstream_cases.

(** ** For [pkg/helm] *)

Module helm_cases.
Import os helm.

(** The computation starts no process, returns nil and writes exactly
    [line] to standard output. *)
Definition only_describes (m : IO (option string)) (line : string) : Prop :=
  forall w, exists w',
    m w = (None, w')
    /\ stdout w' = (stdout w ++ [line])%list
    /\ procs w' = procs w.

End helm_cases.

(** ** For the cleanup pass *)

Module install_cases.
Import os config install.

Definition note (name : string) : string :=
  "  Note: " ++ name ++ " was not previously installed" ++ Str.nl.

Definition uninstall_argv (name namespace : string) : list string :=
  ["helm"; "uninstall"; name; "-n"; namespace].

(** A machine on which helm knows no release. *)
Definition no_release (history : list (list string)) (argv : list string) : ProcResult :=
  {| perr := Some "exit status 1"; pout := "" |}.

Definition default_config : Config :=
  {| NamespaceGateway := "envoy-gateway-system";
     NamespaceAI := "envoy-ai-gateway-system";
     SkipClean := false; DryRun := false; ValuesExtra := [] |}.

Definition fresh : World := {| stdout := []; procs := [] |}.

End install_cases.

(** ** For the health checker *)

Module doctor_cases.
Import os doctor.

(** The three outcomes of a probe, in the specification's words. *)
Inductive probe : Type := Healthy | Unhealthy | AbsentWillBeCreated.

Definition passes (p : probe) : bool :=
  match p with
  | Unhealthy => false
  | Healthy | AbsentWillBeCreated => true
  end.

(** A probe that can only succeed or fail. *)
Definition required (ok : bool) : probe := if ok then Healthy else Unhealthy.

Definition will_be_created : string :=
  "   Will be created during installation" ++ Str.nl.

(** What the cluster says about a namespace when asked in world [w]. *)
Definition namespace_probe (run : list (list string) -> list string -> ProcResult)
           (namespace : string) (w : World) : probe :=
  match perr (run (procs w) ["kubectl"; "get"; "namespace"; namespace]) with
  | Some _ => AbsentWillBeCreated
  | None => Healthy
  end.

(** A machine with kubectl and helm and a reachable cluster that has
    neither the namespaces nor a Redis pod: every [kubectl get] fails. *)
Definition bare_cluster (history : list (list string)) (argv : list string)
  : ProcResult :=
  match argv with
  | _ :: verb :: _ =>
      if String.eqb verb "get"
      then {| perr := Some "exit status 1"; pout := "" |}
      else {| perr := None; pout := "v3.14.0" ++ Str.nl |}
  | _ => {| perr := None; pout := "" |}
  end.

Definition found (file : string) : option string := None.

Definition not_found (file : string) : option string :=
  Some "executable file not found in $PATH".

Definition first_run : World := {| stdout := []; procs := [] |}.

End doctor_cases.

(** ** For [scripts/merge-charts.sh] *)

Module merge_charts_cases.
Import sh merge_charts.

(** A machine with no files, before any request. *)
Definition quiet : World :=
  {| files := fun _ => None; curl_calls := 0; log := []; slept := [] |}.

(** The release document of the scenario: tag v2.3.1, no assets. *)
Definition widget_text : string :=
  "{" ++ Str.dq ++ "tag_name" ++ Str.dq ++ ":" ++ Str.dq ++ "v2.3.1" ++ Str.dq
      ++ "," ++ Str.dq ++ "assets" ++ Str.dq ++ ":[]}".

Definition widget_release : jq.release :=
  {| jq.text := widget_text;
     jq.tag_name := Some "v2.3.1";
     jq.assets := [];
     jq.repository_full_name := None |}.

End merge_charts_cases.

(** ** For the fetcher *)

Module download_cases.
Import sh.
Import merge_charts_cases.

(** An endpoint that answers every request with status 500. *)
Definition always_500 (n : nat) (url : string) : curl_outcome := HttpError 500.

(** An endpoint that cannot be reached. *)
Definition unreachable (n : nat) (url : string) : curl_outcome :=
  ConnectionError None.

Definition gzip_mime (content : string) : string := "application/gzip".


Definition staged_path : string := "helm-wrapper/upstream-charts/acme-widget-v2.3.1.tgz".


(** What three rejected attempts leave behind, in the keyword script and
    in the suffix script. *)
Definition rejected_three_times
           (host : nat -> string -> curl_outcome) (file_mime : string -> string)
           (url output_file : string) (w : World) : Prop :=
  (let '(r, w') := merge_charts.download_file host file_mime url output_file w in
   r = Exit 1
   /\ curl_calls w' = curl_calls w + 3
   /\ files w' = files w
   /\ slept w' = (slept w ++ [2; 2])%list
   /\ exists earlier,
       log w' = (earlier ++ [(ERROR, "Failed to download after 3 attempts: " ++ url)%string])%list)
  /\
  (let '(r, w') := merge_charts_tgz.download_file host url output_file w in
   r = Return 1 tt
   /\ curl_calls w' = curl_calls w + 3
   /\ files w' = files w
   /\ slept w' = (slept w ++ [2; 2])%list
   /\ exists earlier,
       log w' = (earlier ++ [(ERROR, "Failed to download " ++ url
                                     ++ " after 3 attempts")%string])%list).

End download_cases.

(** ** For the multi-upstream run *)

Module main_cases.
Import sh.

(** The run of the claim on the script's own list: the first upstream is
    processed successfully, the release lookup of the second one answers
    "not found", the others are fine. *)
Definition second_not_found (owner repo : string) : bool :=
  negb (String.eqb repo "ai-gateway-helm").

(** The number of upstreams of the list that are processed successfully. *)
Fixpoint count_ok (process_upstream : string -> string -> bool)
         (ups : list string) : nat :=
  match ups with
  | [] => 0
  | upstream :: rest =>
      let '(owner, repo) := Str.read_owner_repo upstream in
      (if process_upstream owner repo then 1 else 0) + count_ok process_upstream rest
  end.

Definition second_repo_fails (owner_repo : string) : bool :=
  negb (String.eqb owner_repo "envoyproxy/ai-gateway-helm").

End main_cases.

(** ** For the local file name *)

Module resolve_cases.
Import sh merge_charts_tgz.
Import merge_charts_cases.


(** The release of the scenario as the host would have to send it for this
    script: tag v2.3.1, no assets, and the repository's full name. *)
Definition widget_release_named : jq.release :=
  {| jq.text := widget_text;
     jq.tag_name := Some "v2.3.1";
     jq.assets := [];
     jq.repository_full_name := Some "acme/widget" |}.

End resolve_cases.

(** ** For the rest of [pkg/upstream] and [pkg/helm] *)

Module upstream_more_cases.
Import github upstream.

(** A client that knows one release for every upstream. *)
Definition same_release (rel : RepositoryRelease) (owner repo : string)
  : RepositoryRelease + string := inl rel.

(** A release whose first chart-like asset was published without a URL. *)
Definition urlless_first : RepositoryRelease :=
  {| TagName := Some "v1.0.0";
     Assets := [ {| Name := Some "gateway-helm.tgz"; BrowserDownloadURL := None |};
                 {| Name := Some "gateway-chart.tgz";
                    BrowserDownloadURL := Some "https://x/gateway-chart.tgz" |} ] |}.

End upstream_more_cases.

Module helm_more_cases.
Import helm.

(** The command line [Install] is meant to produce. *)
Definition install_line (releaseName chart namespace version : string)
           (values : list string) (dry : bool) : list string :=
  (["upgrade"; "--install"; releaseName; chart; "-n"; namespace; "--create-namespace"]
   ++ (if String.eqb version "" then [] else ["--version"; version])
   ++ flat_map (fun v => ["-f"; v]) values
   ++ (if dry then ["--dry-run"; "--debug"] else []))%list.

End helm_more_cases.

(** ** For the install steps *)

Module install_steps_cases.
Import os config net.

(** [strings.TrimSpace] on text without control characters and without
    characters outside ASCII: only blanks are removed, at both ends. *)
Fixpoint trim_left (s : string) : string :=
  match s with
  | String c s' => if Ascii.eqb c " " then trim_left s' else s
  | EmptyString => EmptyString
  end.

Fixpoint trim_right (s : string) : string :=
  match s with
  | EmptyString => EmptyString
  | String c s' =>
      match trim_right s' with
      | EmptyString => if Ascii.eqb c " " then EmptyString else String c EmptyString
      | rest => String c rest
      end
  end.

Definition trim_blanks (s : string) : string := trim_right (trim_left s).

Definition nonempty (v : string) : bool := negb (String.eqb v "").

(** The second word of a command line is [uninstall]. *)
Definition is_uninstall (argv : list string) : bool :=
  match argv with
  | _ :: verb :: _ => String.eqb verb "uninstall"
  | _ => false
  end.

Definition succeeded (r : ProcResult) : bool :=
  match perr r with None => true | Some _ => false end.

(** Every command of [started] that is not an uninstall succeeded, each
    one run after [history] and the commands before it. *)
Fixpoint required_ok (run : list (list string) -> list string -> ProcResult)
         (history started : list (list string)) : bool :=
  match started with
  | [] => true
  | argv :: rest =>
      (is_uninstall argv || succeeded (run history argv))
      && required_ok run (history ++ [argv])%list rest
  end.

(** What a run of the installer may end with: on success every required
    command it started succeeded; on failure the last command it started
    is a required one that failed, and all required ones before it
    succeeded. *)
Definition stops_at_first_failure
           (run : list (list string) -> list string -> ProcResult)
           (m : M (option string)) : Prop :=
  forall e,
    let '(err, e') := m e in
    exists started,
      procs (io e') = (procs (io e) ++ started)%list
      /\ match err with
         | None => required_ok run (procs (io e)) started = true
         | Some _ =>
             exists before last,
               started = (before ++ [last])%list
               /\ required_ok run (procs (io e)) before = true
               /\ is_uninstall last = false
               /\ succeeded (run (procs (io e) ++ before)%list last) = false
         end.

(** The computation leaves the list of started processes alone. *)
Definition procs_kept {A : Type} (m : M A) : Prop :=
  forall e, procs (io (snd (m e))) = procs (io e).


(** A machine on which every command succeeds and prints nothing. *)
Definition all_fine (history : list (list string)) (argv : list string) : ProcResult :=
  {| perr := None; pout := "" |}.

(** A machine on which only [helm repo update] fails. *)
Definition update_fails (history : list (list string)) (argv : list string)
  : ProcResult :=
  match argv with
  | _ :: _ :: verb :: _ =>
      if String.eqb verb "update"
      then {| perr := Some "exit status 1"; pout := "" |}
      else {| perr := None; pout := "" |}
  | _ => {| perr := None; pout := "" |}
  end.

(** A network on which the official values file is there. *)
Definition values_served (history : list string) (url : string) : Response :=
  Answer 200 "config: {}" None.

(** A network that cannot be reached. *)
Definition offline (history : list string) (url : string) : Response :=
  GetError "dial tcp: no route to host".

Definition temp_dir (existing : list (string * string)) : string + string :=
  inl ("/tmp/envoy-ai-values-" ++ Str.of_nat (List.length existing) ++ ".yaml").

Definition start_env : Env :=
  {| io := {| stdout := []; procs := [] |}; gets := []; temps := [] |}.

Definition default_cfg : Config :=
  {| NamespaceGateway := "envoy-gateway-system";
     NamespaceAI := "envoy-ai-gateway-system";
     SkipClean := false; DryRun := false; ValuesExtra := [] |}.

(** The two repository commands that open every install step. *)
Definition repo_commands (name url : string) : list (list string) :=
  [ ["helm"; "repo"; "add"; name; url; "--force-update"];
    ["helm"; "repo"; "update"] ].

Definition upgrade_command (releaseName chart namespace version : string)
           (values : list string) : list string :=
  "helm" :: helm_more_cases.install_line releaseName chart namespace version values false.

(** The commands of a complete real run, in order: [official] holds the
    name of the downloaded values file, if there is one, and [extras] the
    values files of the flag. *)
Definition complete_run (cfg : Config) (withRedis : bool)
           (official extras : list string) : list (list string) :=
  ((if SkipClean cfg then []
    else [ install_cases.uninstall_argv "eg" (NamespaceGateway cfg);
           install_cases.uninstall_argv "aieg-crd" (NamespaceAI cfg);
           install_cases.uninstall_argv "aieg" (NamespaceAI cfg) ])
   ++ repo_commands "envoyproxy" "oci://docker.io/envoyproxy"
   ++ [ upgrade_command "eg" "envoyproxy/gateway-helm" (NamespaceGateway cfg)
                        "v0.0.0-latest" (official ++ extras) ]
   ++ repo_commands "envoyproxy-ai" "oci://docker.io/envoyproxy"
   ++ [ upgrade_command "aieg-crd" "envoyproxy/ai-gateway-crds-helm" (NamespaceAI cfg)
                        "v0.0.0-latest" [] ]
   ++ repo_commands "envoyproxy-ai" "oci://docker.io/envoyproxy"
   ++ [ upgrade_command "aieg" "envoyproxy/ai-gateway-helm" (NamespaceAI cfg)
                        "v0.0.0-latest" extras ]
   ++ (if withRedis
       then repo_commands "bitnami" "https://charts.bitnami.com/bitnami"
            ++ [ upgrade_command "envoy-redis" "bitnami/redis" (NamespaceAI cfg) "" [] ]
       else []))%list.

End install_steps_cases.

(** ** For the fetcher: what a download run comes to *)

Module download_more_cases.
Import sh.

(** An answer that completes a download: a transfer with a body. *)
Definition delivers (o : curl_outcome) : bool :=
  match o with
  | Transferred body => (0 <? String.length body)%nat
  | _ => false
  end.

(** The offset of the first of [n] answers, from the [start]-th on, that
    completes a download. *)
Fixpoint first_delivery (host : nat -> string -> curl_outcome) (url : string)
         (start n : nat) : option nat :=
  match n with
  | 0 => None
  | S n' =>
      if delivers (host start url) then Some 0
      else option_map S (first_delivery host url (S start) n')
  end.

(** What a run of the suffix-matching script's [download_file] comes to. *)
Definition download_tgz_summary (host : nat -> string -> curl_outcome)
           (url output_file : string) (w : World) : Prop :=
  let '(r, w') := merge_charts_tgz.download_file host url output_file w in
  match first_delivery host url (curl_calls w) 3 with
  | Some k =>
      r = Return 0 tt
      /\ curl_calls w' = curl_calls w + S k
      /\ slept w' = (slept w ++ repeat 2 k)%list
      /\ exists body, host (curl_calls w + k) url = Transferred body
                      /\ files w' output_file = Some body
                      /\ body <> ""
  | None =>
      r = Return 1 tt
      /\ curl_calls w' = curl_calls w + 3
      /\ slept w' = (slept w ++ [2; 2])%list
  end.

(** The offset and the body of the first transfer among [n] answers, from
    the [start]-th on. *)
Fixpoint first_transfer (host : nat -> string -> curl_outcome) (url : string)
         (start n : nat) : option (nat * string) :=
  match n with
  | 0 => None
  | S n' =>
      match host start url with
      | Transferred body => Some (0, body)
      | _ => option_map (fun kb => (S (fst kb), snd kb))
                        (first_transfer host url (S start) n')
      end
  end.

(** What a run of the [download_file] of [merge-charts.sh] comes to. *)
Definition download_summary (host : nat -> string -> curl_outcome)
           (file_mime : string -> string) (url output_file : string) (w : World)
  : Prop :=
  let '(r, w') := merge_charts.download_file host file_mime url output_file w in
  match first_transfer host url (curl_calls w) 3 with
  | Some (k, body) =>
      r = (if String.eqb body "" then Exit 1 else Return 0 tt)
      /\ curl_calls w' = curl_calls w + S k
      /\ slept w' = (slept w ++ repeat 2 k)%list
      /\ files w' output_file = Some body
  | None =>
      r = Exit 1
      /\ curl_calls w' = curl_calls w + 3
      /\ slept w' = (slept w ++ [2; 2])%list
  end.

(** An answer that makes curl exit 0. *)
Definition transfers (o : curl_outcome) : bool :=
  match o with Transferred _ => true | _ => false end.

(** A host that answers every request with an empty body. *)
Definition always_empty (n : nat) (url : string) : curl_outcome := Transferred "".

(** A host that rejects the first two requests and then sends the chart. *)
Definition third_time_lucky (n : nat) (url : string) : curl_outcome :=
  if (n <? 2)%nat then HttpError 503 else Transferred "chart bytes".

(** The two downloads on a host that only sends empty bodies. *)
Definition empty_answer_runs (host : nat -> string -> curl_outcome)
           (file_mime : string -> string) (url output_file : string) (w : World)
  : Prop :=
  (let '(r, w') := merge_charts.download_file host file_mime url output_file w in
   r = Exit 1
   /\ curl_calls w' = curl_calls w + 1
   /\ slept w' = slept w
   /\ files w' output_file = Some "")
  /\
  (let '(r, w') := merge_charts_tgz.download_file host url output_file w in
   r = Return 1 tt
   /\ curl_calls w' = curl_calls w + 3
   /\ slept w' = (slept w ++ [2; 2])%list
   /\ files w' output_file = Some "").

End download_more_cases.

(** ** For the artifact the suffix-matching script resolves *)

Module resolve_more_cases.
Import sh merge_charts_tgz.


(** A release whose only asset is a chart packed as [.tar.gz]. *)
Definition tar_gz_release : jq.release :=
  {| jq.text := "";
     jq.tag_name := Some "v2.3.1";
     jq.assets := [ {| jq.name := "widget-chart.tar.gz";
                       jq.browser_download_url := "https://x/widget-chart.tar.gz" |} ];
     jq.repository_full_name := Some "acme/widget" |}.

End resolve_more_cases.

(** ** For the release lookup of the suffix-matching script *)

Module release_lookup_cases.
Import sh merge_charts_tgz release_lookup.






(** An API that answers 403 to every request. *)
Definition rate_limited (n : nat) (api_url : string) : api_answer :=
  {| http_code := "403"; body := ""; parsed := None |}.

(** An API that answers 502 once and then sends the release. *)
Definition second_time_lucky (n : nat) (api_url : string) : api_answer :=
  if (n <? 1)%nat then {| http_code := "502"; body := ""; parsed := None |}
  else {| http_code := "200"; body := merge_charts_cases.widget_text;
          parsed := Some resolve_cases.widget_release_named |}.

End release_lookup_cases.

(** ** For [process_repo] of the suffix-matching script *)

Module process_repo_cases.
Import sh merge_charts_tgz.
Import resolve_more_cases.


(** A release lookup that finds the release of the scenario. *)
Definition widget_lookup (owner_repo : string) : option jq.release :=
  Some resolve_cases.widget_release_named.

End process_repo_cases.

(** ** For the processes of the health checker *)

Module doctor_more_cases.
Import os doctor.

Definition kubectl_version : list string := ["kubectl"; "version"; "--client"; "--short"].
Definition helm_version : list string := ["helm"; "version"; "--short"].

(** The processes the two tool checks start: [kubectl version] when
    kubectl is on the path, [helm version --short] once, and once more when
    the first one succeeded. *)
Definition tool_probes (run : list (list string) -> list string -> ProcResult)
           (LookPath : string -> option string) (history : list (list string))
  : list (list string) :=
  let k := match LookPath "kubectl" with
           | Some _ => []
           | None => [kubectl_version]
           end in
  let h := match perr (run (history ++ k)%list helm_version) with
           | Some _ => [helm_version]
           | None => [helm_version; helm_version]
           end in
  (k ++ h)%list.

(** The processes the cluster checks start. *)
Definition cluster_probes (namespaceGW namespaceAI : string) : list (list string) :=
  [ ["kubectl"; "cluster-info"];
    ["kubectl"; "get"; "namespace"; namespaceGW];
    ["kubectl"; "get"; "namespace"; namespaceAI];
    ["kubectl"; "get"; "pod"; "-n"; namespaceAI; "-l"; "app=redis"; "-o";
     "jsonpath={.items[0].metadata.name}"] ].

End doctor_more_cases.

(** ** For the version report *)

Module version_cases.
Import os github upstream version_cmd.
Import upstream_cases.

(** The line printed for a chart. *)
Definition chart_line (chart : ChartRelease) : string :=
  "  " ++ Owner chart ++ "/" ++ Repo chart ++ ":  " ++ Version chart ++ Str.nl.

(** The head of the version report. *)
Definition report_head (vars : Vars) : list string :=
  [ "📦 envoy-ai-installer Version Information" ++ Str.nl;
    Str.nl;
    "  CLI Version:    " ++ cliVersion vars ++ Str.nl;
    "  Git Commit:     " ++ gitCommit vars ++ Str.nl;
    "  Build Time:     " ++ buildTime vars ++ Str.nl;
    Str.nl ].

(** The Helm line: printed only when [helm version --short] succeeded. *)
Definition helm_line (r : ProcResult) : list string :=
  match perr r with
  | None => ["  Helm Version:   " ++ pout r]
  | Some _ => []
  end.

(** What follows the heading of the upstream versions. *)
Definition upstream_lines (client : string -> string -> RepositoryRelease + string)
  : list string :=
  match snd (GetUpstreamCharts client) with
  | Some e => ["  ⚠️  Could not fetch upstream versions: " ++ e ++ Str.nl]
  | None => map chart_line (fst (GetUpstreamCharts client))
  end.

(** The same, from the lookups: a line for every upstream when all of
    them succeeded, one warning otherwise. *)
Definition report_tail (client : string -> string -> RepositoryRelease + string)
  : list string :=
  match failed client upstreams with
  | [] => map chart_line (fetched client upstreams)
  | _ :: _ =>
      [ "  ⚠️  Could not fetch upstream versions: "
        ++ "errors fetching upstream charts:" ++ Str.nl
        ++ Str.Join (failed client upstreams) Str.nl ++ Str.nl ]
  end.

(** A client whose lookup of the third upstream fails. *)
Definition third_fails (owner repo : string) : RepositoryRelease + string :=
  if String.eqb repo "ai-gateway-crds-helm" then inr "404 Not Found"
  else inl sample_release.

(** A machine without helm. *)
Definition no_helm (history : list (list string)) (argv : list string) : ProcResult :=
  {| perr := Some "executable file not found in $PATH"; pout := "" |}.

End version_cases.

(** ** For the download of the official values and the configuration *)

Module fetch_cases.
Import os config net install_steps.

(** What a call of [fetchRemoteValuesFile] comes to. *)
Definition fetch_summary (http : list string -> string -> Response)
           (CreateTemp : list (string * string) -> string + string)
           (url : string) (e : Env) : Prop :=
  let '((name, err), e') := fetchRemoteValuesFile http CreateTemp url e in
  gets e' = (gets e ++ [url])%list
  /\ io e' = io e
  /\ match http (gets e) url with
     | GetError x => name = "" /\ err = Some x /\ temps e' = temps e
     | Answer status read read_err =>
         if (status =? 200)%nat then
           match CreateTemp (temps e) with
           | inr x => name = "" /\ err = Some x /\ temps e' = temps e
           | inl created =>
               map fst (temps e') = (map fst (temps e) ++ [created])%list
               /\ In (created, read) (temps e')
               /\ match read_err with
                  | Some x => name = "" /\ err = Some x
                  | None => name = created /\ err = None
                  end
           end
         else
           name = ""
           /\ err = Some ("failed to fetch remote file: HTTP " ++ Str.of_nat status)
           /\ temps e' = temps e
     end.

(** The configuration fields the install reads. *)
Definition same_install_settings (cfg cfg' : Config) : Prop :=
  NamespaceGateway cfg = NamespaceGateway cfg'
  /\ NamespaceAI cfg = NamespaceAI cfg'
  /\ SkipClean cfg = SkipClean cfg'.

(** The default configuration with the two fields the install does not
    read set otherwise. *)
Definition other_cfg : Config :=
  {| NamespaceGateway := "envoy-gateway-system";
     NamespaceAI := "envoy-ai-gateway-system";
     SkipClean := false;
     DryRun := true;
     ValuesExtra := ["ignored.yaml"] |}.

End fetch_cases.

(** ** For the error texts of the install *)

Module install_error_cases.
Import os config net install_steps.




End install_error_cases.

(* ===================================================================== *)
(** * Properties *)
(* ===================================================================== *)

(** ** Strings *)

Example ToLower_sample : Str.ToLower "Widget-v2.3.1.TGZ" = "widget-v2.3.1.tgz".
Proof. reflexivity. Qed.

Example Contains_sample :
  Str.Contains "widget-chart.zip" "chart" = true
  /\ Str.Contains "widget.zip" "chart" = false
  /\ Str.Contains "" "" = true.
Proof. repeat split. Qed.

Example HasSuffix_sample :
  Str.HasSuffix "https://x/widget.tgz" ".tgz" = true
  /\ Str.HasSuffix "https://x/widget.tgz" ".tar.gz" = false
  /\ Str.HasSuffix "gz" ".tar.gz" = false.
Proof. repeat split. Qed.

Example sed_strip_sample :
  Str.sed_strip_to_last_slash "envoyproxy/ai-gateway-helm" = "ai-gateway-helm"
  /\ Str.sed_strip_to_last_slash "a/b/c" = "c"
  /\ Str.sed_strip_to_last_slash "plain" = "plain".
Proof. repeat split. Qed.

Example read_owner_repo_sample :
  Str.read_owner_repo "envoyproxy/gateway" = ("envoyproxy", "gateway").
Proof. reflexivity. Qed.

Example Join_sample : Str.Join ["repo"; "update"] " " = "repo update".
Proof. reflexivity. Qed.

Example of_nat_sample : Str.of_nat 3 = "3" /\ Str.of_nat 12 = "12".
Proof. split; reflexivity. Qed.



Lemma string_app_assoc (a b c : string) : ((a ++ b) ++ c = a ++ (b ++ c))%string.
Proof.
  induction a as [|x a IH]; simpl; [reflexivity | now rewrite IH].
Qed.



Lemma length_app (a b : string) :
  String.length (a ++ b) = String.length a + String.length b.
Proof.
  induction a as [|c a IH]; simpl; [reflexivity | now rewrite IH].
Qed.




Lemma prefix_iff (p s : string) :
  String.prefix p s = true <-> exists post, s = p ++ post.
Proof.
  revert s. induction p as [|a p IH]; intros s.
  - split; [intros _; now exists s | intros _; now destruct s].
  - destruct s as [|b s]; simpl.
    + split; [discriminate | intros [post H]; discriminate].
    + destruct (ascii_dec a b) as [->|Hne].
      * rewrite IH. split; intros [post H]; exists post.
        -- now rewrite H.
        -- now inversion H.
      * split; [discriminate|]. intros [post H]. inversion H. congruence.
Qed.

(** [Contains] is "has as a substring". *)
Lemma Contains_iff (s sub : string) :
  Str.Contains s sub = true <-> exists pre post, s = pre ++ sub ++ post.
Proof.
  induction s as [|c s IH].
  - change (Str.Contains "" sub) with (String.prefix sub "" || false).
    rewrite orb_false_r, prefix_iff. split.
    + intros [post H]. exists "", post. exact H.
    + intros (pre & post & H). destruct pre; simpl in H.
      * now exists post.
      * discriminate.
  - change (Str.Contains (String c s) sub)
      with (String.prefix sub (String c s) || Str.Contains s sub).
    rewrite orb_true_iff, prefix_iff, IH. split.
    + intros [[post H] | (pre & post & H)].
      * exists "", post. exact H.
      * exists (String c pre), post. simpl. now rewrite H.
    + intros (pre & post & H). destruct pre as [|x pre]; simpl in H.
      * left. now exists post.
      * right. inversion H. now exists pre, post.
Qed.

(** Lower-casing changes no length. *)
Lemma ToLower_length (s : string) :
  String.length (Str.ToLower s) = String.length s.
Proof.
  induction s as [|c s IH]; simpl; [reflexivity | now rewrite IH].
Qed.

(** ** [pkg/upstream] *)

Module upstream_facts.
Import github upstream.
Import upstream_cases.

Lemma scan_keywords_existsb (a : ReleaseAsset) (ks : list string) :
  scan_keywords a ks =
  if existsb (fun k => Str.Contains (Str.ToLower (GetName a)) k) ks
  then Some (GetBrowserDownloadURL a) else None.
Proof.
  induction ks as [|k ks IH]; simpl.
  - reflexivity.
  - destruct (Str.Contains (Str.ToLower (GetName a)) k); simpl.
    + reflexivity.
    + exact IH.
Qed.

Lemma scan_assets_cons (a : ReleaseAsset) (rest : list ReleaseAsset) :
  scan_assets (a :: rest) =
  if matches_keyword a then GetBrowserDownloadURL a else scan_assets rest.
Proof.
  unfold matches_keyword.
  change (scan_assets (a :: rest))
    with (match scan_keywords a keywords with
          | Some url => url
          | None => scan_assets rest
          end).
  rewrite scan_keywords_existsb.
  now destruct (existsb _ keywords).
Qed.

(** No asset matches: [findChartAsset] gives the empty string. *)
Lemma scan_assets_none (assets : list ReleaseAsset) :
  (forall a, In a assets -> matches_keyword a = false) ->
  scan_assets assets = "".
Proof.
  induction assets as [|a rest IH]; intros H.
  - reflexivity.
  - rewrite scan_assets_cons, (H a (or_introl eq_refl)).
    apply IH. intros b Hb. apply H. now right.
Qed.







Example findChartAsset_sample :
  findChartAsset sample_release = "https://x/widget.tgz".
Proof. reflexivity. Qed.

(** *** Release lookup and the tag *)

(** C5.  [FetchLatestRelease] does not look at the tag: for a release
    document without a tag and with a chart asset, the lookup succeeds and
    the returned record has the empty string as its version. *)
Theorem FetchLatestRelease_accepts_missing_tag :
  FetchLatestRelease (fun _ _ => inl tagless_release) "acme" "widget"
  = inl {| Owner := "acme"; Repo := "widget"; Version := "";
           URL := "https://x/widget-chart.tgz" |}.
Proof. reflexivity. Qed.

(** The same for every tagless release in which an asset is selected. *)
Lemma FetchLatestRelease_tag_unchecked
      (client : string -> string -> RepositoryRelease + string)
      (owner repo : string) (rel : RepositoryRelease) :
  client owner repo = inl rel ->
  TagName rel = None ->
  findChartAsset rel <> "" ->
  exists chart, FetchLatestRelease client owner repo = inl chart
                /\ Version chart = "".
Proof.
  intros Hcl Htag Hurl. unfold FetchLatestRelease. rewrite Hcl.
  destruct (String.eqb_spec (findChartAsset rel) "") as [E|_]; [contradiction|].
  eexists. split; [reflexivity|]. simpl. unfold GetTagName. now rewrite Htag.
Qed.

(** *** [GetUpstreamCharts] *)

Section Aggregate.

Variable client : string -> string -> RepositoryRelease + string.

Lemma collect_spec (ups : list (string * string))
      (charts : list ChartRelease) (errors : list string) :
  collect client ups charts errors
  = ((charts ++ fetched client ups)%list, (errors ++ failed client ups)%list).
Proof.
  revert charts errors.
  induction ups as [|[owner repo] rest IH]; intros charts errors; simpl.
  - now rewrite !app_nil_r.
  - destruct (FetchLatestRelease client owner repo) as [chart|err];
      rewrite IH; simpl; now rewrite <- app_assoc.
Qed.

Lemma failed_length (ups : list (string * string)) :
  List.length (failed client ups) = List.length (filter (lookup_fails client) ups).
Proof.
  induction ups as [|up rest IH]; simpl; [reflexivity|].
  unfold lookup_fails at 1.
  destruct (FetchLatestRelease client (fst up) (snd up));
    simpl; now rewrite IH.
Qed.

Lemma failed_nil_iff (ups : list (string * string)) :
  failed client ups = [] <->
  forall up, In up ups ->
             exists chart, FetchLatestRelease client (fst up) (snd up) = inl chart.
Proof.
  induction ups as [|up rest IH]; simpl.
  - split; [intros _ ? [] | reflexivity].
  - destruct (FetchLatestRelease client (fst up) (snd up)) as [chart|err] eqn:E;
      simpl.
    + rewrite IH. split.
      * intros H u [<- | Hu]; [now exists chart | now apply H].
      * intros H u Hu. apply H. now right.
    + split; [discriminate|].
      intros H. destruct (H up (or_introl eq_refl)) as [c Hc]. congruence.
Qed.

Lemma GetUpstreamChartsOver_spec (ups : list (string * string)) :
  GetUpstreamChartsOver client ups
  = (fetched client ups,
     match failed client ups with
     | [] => None
     | _ :: _ => Some ("errors fetching upstream charts:" ++ Str.nl
                       ++ Str.Join (failed client ups) Str.nl)
     end).
Proof.
  unfold GetUpstreamChartsOver. rewrite collect_spec. simpl.
  now destruct (failed client ups).
Qed.

End Aggregate.

(** C10.  [GetUpstreamCharts] returns every successfully fetched release,
    in upstream order, whether or not some lookup failed; its error is nil
    exactly when every lookup succeeded; otherwise the error text is the
    header line followed by the failed lookups' messages, one per failed
    upstream, joined by line feeds. *)
Theorem GetUpstreamCharts_keeps_partial_results
        (client : string -> string -> RepositoryRelease + string) :
  fst (GetUpstreamCharts client) = fetched client upstreams
  /\ snd (GetUpstreamCharts client)
     = match failed client upstreams with
       | [] => None
       | _ :: _ => Some ("errors fetching upstream charts:" ++ Str.nl
                         ++ Str.Join (failed client upstreams) Str.nl)
       end
  /\ List.length (failed client upstreams)
     = List.length (filter (lookup_fails client) upstreams)
  /\ (snd (GetUpstreamCharts client) = None <->
      forall up, In up upstreams ->
                 exists chart,
                   FetchLatestRelease client (fst up) (snd up) = inl chart).
Proof.
  unfold GetUpstreamCharts. rewrite GetUpstreamChartsOver_spec.
  cbn [fst snd].
  split; [reflexivity|]. split; [reflexivity|]. split; [apply failed_length|].
  rewrite <- failed_nil_iff.
  destruct (failed client upstreams); split; intros H;
    try reflexivity; discriminate.
Qed.

End upstream_facts.

(** ** [pkg/helm] and the cleanup pass *)

Module helm_facts.
Import os helm.
Import helm_cases.

Lemma Execute_dry_run (run : list (list string) -> list string -> ProcResult)
      (args : list string) :
  only_describes (Execute run (NewHelmCommand true) args)
                 ("[DRY-RUN] helm " ++ Str.Join args " " ++ Str.nl).
Proof.
  intros w. eexists. split; [reflexivity|]. split; reflexivity.
Qed.

(** C8.  With the dry-run flag set, repository add, repository update,
    install (upgrade --install) and uninstall each print the command line
    that would run, return nil, and start no process, whatever the package
    manager would have answered. *)
Theorem dry_run_describes_instead_of_running
        (run : list (list string) -> list string -> ProcResult) :
  (forall name url,
      only_describes (RepoAdd run (NewHelmCommand true) name url)
        ("[DRY-RUN] helm repo add " ++ name ++ " " ++ url
         ++ " --force-update" ++ Str.nl))
  /\ only_describes (RepoUpdate run (NewHelmCommand true))
       ("[DRY-RUN] helm repo update" ++ Str.nl)
  /\ (forall releaseName chart namespace opts,
         only_describes
           (Install run (NewHelmCommand true) releaseName chart namespace opts)
           ("[DRY-RUN] helm "
            ++ Str.Join (install_args releaseName chart namespace opts) " "
            ++ Str.nl))
  /\ (forall releaseName namespace,
         only_describes (Uninstall run (NewHelmCommand true) releaseName namespace)
           ("[DRY-RUN] helm uninstall " ++ releaseName ++ " -n " ++ namespace
            ++ Str.nl)).
Proof.
  split; [|split; [|split]].
  - intros name url.
    replace ("[DRY-RUN] helm repo add " ++ name ++ " " ++ url
             ++ " --force-update" ++ Str.nl)
      with ("[DRY-RUN] helm "
            ++ Str.Join ["repo"; "add"; name; url; "--force-update"] " "
            ++ Str.nl).
    + apply Execute_dry_run.
    + unfold Str.Join, Str.nl. simpl.
      repeat (rewrite string_app_assoc; simpl). reflexivity.
  - apply (Execute_dry_run run ["repo"; "update"]).
  - intros releaseName chart namespace opts. apply Execute_dry_run.
  - intros releaseName namespace w. eexists.
    split; [reflexivity|]. split; reflexivity.
Qed.

(** The first arguments of an install are fixed, whatever the options. *)
Example install_args_sample :
  install_args "eg" "envoyproxy/gateway-helm" "envoy-gateway-system"
               {| DryRun := false; Namespace := "envoy-gateway-system";
                  Values := ["/tmp/v.yaml"; "extra.yaml"];
                  Version := "v0.0.0-latest"; ChartRepo := "" |}
  = ["upgrade"; "--install"; "eg"; "envoyproxy/gateway-helm";
     "-n"; "envoy-gateway-system"; "--create-namespace";
     "--version"; "v0.0.0-latest"; "-f"; "/tmp/v.yaml"; "-f"; "extra.yaml"].
Proof. reflexivity. Qed.

End helm_facts.

Module install_facts.
Import os config install.
Import install_cases.

Section Cleanup.

Variable run : list (list string) -> list string -> ProcResult.

(** The cleanup pass reports success whatever the uninstalls answered. *)
Lemma cleanPreviousInstall_returns_nil (cfg : Config) (isDryRun : bool) (w : World) :
  fst (cleanPreviousInstall run cfg isDryRun w) = None.
Proof.
  unfold cleanPreviousInstall, bind.
  now destruct (uninstall_each run _ (releases cfg) w).
Qed.

(** Standard output only grows during the loop. *)
Lemma uninstall_each_extends (h : helm.HelmCommand) (rs : list (string * string)) :
  forall w, exists more,
    stdout (snd (uninstall_each run h rs w)) = (stdout w ++ more)%list.
Proof.
  induction rs as [|[name namespace] rest IH]; intros w.
  - exists []. simpl. now rewrite app_nil_r.
  - simpl. unfold bind, helm.Uninstall.
    destruct (helm.dryRun h);
      [ simpl
      | unfold RunInherit, start; simpl;
        destruct (perr (run (procs w) _)); simpl ];
      match goal with
      | |- context [uninstall_each run h rest ?w0] =>
          destruct (IH w0) as [more Hm]; rewrite Hm; simpl;
          rewrite <- ?app_assoc; eexists; reflexivity
      end.
Qed.

(** When every uninstall fails, each release of the list gets its note,
    for any list of release name/namespace pairs. *)
Lemma uninstall_each_notes (rs : list (string * string)) :
  (forall history name namespace,
      perr (run history (uninstall_argv name namespace)) <> None) ->
  forall w name namespace,
    In (name, namespace) rs ->
    In (note name)
       (stdout (snd (uninstall_each run (helm.NewHelmCommand false) rs w))).
Proof.
  intros Hfail.
  induction rs as [|[n ns] rest IH]; intros w name namespace Hin.
  - destruct Hin.
  - simpl. unfold bind, helm.Uninstall. simpl.
    unfold RunInherit, start. simpl.
    destruct (perr (run (procs w) ["helm"; "uninstall"; n; "-n"; ns])) as [e|] eqn:E.
    2:{ exfalso. exact (Hfail (procs w) n ns E). }
    simpl. destruct Hin as [Heq | Hin].
    + inversion Heq; subst.
      match goal with
      | |- context [uninstall_each run ?h rest ?w0] =>
          destruct (uninstall_each_extends h rest w0) as [more Hm]; rewrite Hm
      end.
      simpl. apply in_or_app. left. apply in_or_app. right. now left.
    + now apply IH with (namespace := namespace).
Qed.

End Cleanup.

(** C7.  When none of the releases exists, so that every [helm uninstall]
    fails, the cleanup pass still returns nil, in dry-run mode or not, and
    in a real run the note of every release of the list is on standard
    output: the failures are logged and swallowed. *)
Theorem cleanup_succeeds_when_releases_absent
        (run : list (list string) -> list string -> ProcResult)
        (cfg : Config) (isDryRun : bool) (w : World) :
  (forall history name namespace,
      perr (run history (uninstall_argv name namespace)) <> None) ->
  fst (cleanPreviousInstall run cfg isDryRun w) = None
  /\ forall name namespace,
       In (name, namespace) (releases cfg) ->
       In (note name) (stdout (snd (cleanPreviousInstall run cfg false w))).
Proof.
  intros Hfail. split.
  - apply cleanPreviousInstall_returns_nil.
  - intros name namespace Hin.
    pose proof (uninstall_each_notes run (releases cfg) Hfail w name namespace Hin) as H.
    unfold cleanPreviousInstall, bind.
    destruct (uninstall_each run (helm.NewHelmCommand false) (releases cfg) w).
    exact H.
Qed.

Lemma cleanup_succeeds_when_releases_absent_witness :
  fst (cleanPreviousInstall no_release default_config false fresh) = None
  /\ forall name namespace,
       In (name, namespace) (releases default_config) ->
       In (note name)
          (stdout (snd (cleanPreviousInstall no_release default_config false fresh))).
Proof.
  apply (cleanup_succeeds_when_releases_absent no_release default_config false fresh).
  intros history name namespace. simpl. discriminate.
Defined.

(** What that run prints and starts. *)
Example cleanup_on_empty_cluster :
  cleanPreviousInstall no_release default_config false fresh
  = (None,
     {| stdout := [""; note "eg"; ""; note "aieg-crd"; ""; note "aieg"];
        procs := [uninstall_argv "eg" "envoy-gateway-system";
                  uninstall_argv "aieg-crd" "envoy-ai-gateway-system";
                  uninstall_argv "aieg" "envoy-ai-gateway-system"] |}).
Proof. reflexivity. Qed.

End install_facts.

(** ** The health checker *)

Module doctor_facts.
Import os doctor.
Import doctor_cases.

Section Checks.

Variable run : list (list string) -> list string -> ProcResult.
Variable LookPath : string -> option string.

Lemma checkNamespace_passes (namespace : string) (w : World) :
  fst (checkNamespace run namespace w) = true.
Proof.
  unfold checkNamespace, bind, Print, Println, RunQuiet, start. simpl.
  now destruct (perr (run (procs w) _)).
Qed.

Lemma checkNamespace_agrees (namespace : string) (w : World) :
  fst (checkNamespace run namespace w) = passes (namespace_probe run namespace w).
Proof.
  rewrite checkNamespace_passes. unfold namespace_probe.
  now destruct (perr (run (procs w) _)).
Qed.

Lemma checkNamespace_absent (namespace : string) (w : World) :
  namespace_probe run namespace w = AbsentWillBeCreated ->
  stdout (snd (checkNamespace run namespace w))
  = (stdout w ++ [("🔍 Namespace '" ++ namespace ++ "':    ")%string;
                  ("❌ NOT FOUND" ++ Str.nl)%string;
                  will_be_created])%list.
Proof.
  unfold namespace_probe, checkNamespace, bind, Print, Println, RunQuiet, start.
  simpl. destruct (perr (run (procs w) _)); [|discriminate].
  intros _. simpl. now rewrite <- !app_assoc.
Qed.

(** The verdict of [runDoctor] is computed from the first three checks
    only. *)
Lemma runDoctor_verdict (namespaceGW namespaceAI : string) (w : World) :
  let w0 := snd (bind (Println "🏥 System Health Check")
                      (fun _ => Println "") w) in
  let '(k, w1) := checkKubectl run LookPath w0 in
  let '(h, w2) := checkHelm run w1 in
  let '(c, w3) := checkKubernetesConnection run w2 in
  fst (runDoctor run LookPath namespaceGW namespaceAI w)
  = if k && h && c then None else Some "system health check failed".
Proof.
  unfold runDoctor. unfold bind at 1 2 3 4 5. simpl.
  destruct (checkKubectl run LookPath _) as [k w1].
  unfold bind at 1.
  destruct (checkHelm run w1) as [h w2].
  unfold bind at 1.
  destruct (checkKubernetesConnection run w2) as [c w3].
  unfold bind at 1.
  pose proof (checkNamespace_passes namespaceGW w3) as Hg.
  destruct (checkNamespace run namespaceGW w3) as [g w4]. simpl in Hg. subst g.
  unfold bind at 1.
  pose proof (checkNamespace_passes namespaceAI w4) as Ha.
  destruct (checkNamespace run namespaceAI w4) as [a w5]. simpl in Ha. subst a.
  unfold bind at 1.
  destruct (checkRedis run namespaceAI w5) as [r w6].
  unfold bind, Println, Print, ret.
  destruct k, h, c, r; reflexivity.
Qed.

End Checks.

(** C9.  A namespace probe always passes, and when the namespace does not
    exist it prints "Will be created during installation".  [runDoctor]
    returns nil exactly when every required probe (kubectl, helm, cluster
    connection, the two namespaces) is Healthy or Absent-but-will-be-created;
    the Redis probe has no part in the verdict. *)
Theorem runDoctor_passes_iff_required_probes_pass
        (run : list (list string) -> list string -> ProcResult)
        (LookPath : string -> option string)
        (namespaceGW namespaceAI : string) (w : World) :
  let w0 := snd (bind (Println "🏥 System Health Check")
                      (fun _ => Println "") w) in
  let '(k, w1) := checkKubectl run LookPath w0 in
  let '(h, w2) := checkHelm run w1 in
  let '(c, w3) := checkKubernetesConnection run w2 in
  let '(g, w4) := checkNamespace run namespaceGW w3 in
  let '(a, w5) := checkNamespace run namespaceAI w4 in
  let '(r, w6) := checkRedis run namespaceAI w5 in
  g = passes (namespace_probe run namespaceGW w3)
  /\ a = passes (namespace_probe run namespaceAI w4)
  /\ (namespace_probe run namespaceGW w3 = AbsentWillBeCreated ->
      In will_be_created (stdout w4) /\ g = true)
  /\ (namespace_probe run namespaceAI w4 = AbsentWillBeCreated ->
      In will_be_created (stdout w5) /\ a = true)
  /\ (fst (runDoctor run LookPath namespaceGW namespaceAI w) = None
      <-> forallb passes [required k; required h; required c;
                          namespace_probe run namespaceGW w3;
                          namespace_probe run namespaceAI w4] = true)
  /\ (r = false ->
      (fst (runDoctor run LookPath namespaceGW namespaceAI w) = None
       <-> k && h && c = true)).
Proof.
  intros w0.
  pose proof (runDoctor_verdict run LookPath namespaceGW namespaceAI w) as Hv.
  fold w0 in Hv. cbv zeta in Hv.
  destruct (checkKubectl run LookPath w0) as [k w1].
  destruct (checkHelm run w1) as [h w2].
  destruct (checkKubernetesConnection run w2) as [c w3].
  pose proof (checkNamespace_agrees run namespaceGW w3) as Hg.
  pose proof (checkNamespace_passes run namespaceGW w3) as Hg'.
  pose proof (checkNamespace_absent run namespaceGW w3) as Hgo.
  destruct (checkNamespace run namespaceGW w3) as [g w4].
  pose proof (checkNamespace_agrees run namespaceAI w4) as Ha.
  pose proof (checkNamespace_passes run namespaceAI w4) as Ha'.
  pose proof (checkNamespace_absent run namespaceAI w4) as Hao.
  destruct (checkNamespace run namespaceAI w4) as [a w5].
  destruct (checkRedis run namespaceAI w5) as [r w6].
  simpl in Hg, Hg', Hgo, Ha, Ha', Hao.
  assert (Hverdict :
            fst (runDoctor run LookPath namespaceGW namespaceAI w) = None
            <-> k && h && c = true).
  { rewrite Hv. destruct (k && h && c); split; congruence. }
  repeat split; try assumption.
  - rewrite (Hgo H). apply in_or_app. right. simpl. auto.
  - rewrite (Hao H). apply in_or_app. right. simpl. auto.
  - intros H. apply Hverdict in H. simpl.
    rewrite <- Hg, <- Ha, Hg', Ha'.
    destruct k, h, c; simpl in *; congruence.
  - intros H. apply Hverdict. simpl in H.
    destruct k, h, c; simpl in *; congruence.
  - apply Hverdict.
  - apply Hverdict.
Qed.

(** On a cluster without the namespaces and without Redis the check
    passes, and says that the namespaces will be created. *)
Example runDoctor_on_bare_cluster :
  let '(err, w) := runDoctor bare_cluster found
                     "envoy-gateway-system" "envoy-ai-gateway-system" first_run in
  err = None
  /\ count_occ string_dec (stdout w) will_be_created = 2
  /\ List.length (procs w) = 7.
Proof. vm_compute. repeat split. Qed.

(** Without kubectl on the path the check fails. *)
Example runDoctor_without_kubectl :
  fst (runDoctor bare_cluster not_found
         "envoy-gateway-system" "envoy-ai-gateway-system" first_run)
  = Some "system health check failed".
Proof. reflexivity. Qed.

End doctor_facts.

(** ** [scripts/merge-charts.sh] *)

Module merge_charts_facts.
Import sh merge_charts.
Import merge_charts_cases.

Lemma filter_nothing {A : Type} (p : A -> bool) (l : list A) :
  (forall a, In a l -> p a = false) -> filter p l = [].
Proof.
  induction l as [|x l IH]; intros H; simpl.
  - reflexivity.
  - rewrite (H x (or_introl eq_refl)). apply IH. intros a Ha. apply H. now right.
Qed.

(** *** The fallback URL *)

(** When no asset name matches the pattern, the URL is put together from
    the first two positional parameters, the release document and the
    owner; the third one, the project, is not used. *)
Lemma find_helm_chart_asset_fallback
      (release_json : jq.release) (owner repo tag : string) (w : World) :
  (forall a, In a (jq.assets release_json) ->
             test_i asset_pattern (jq.name a) = false) ->
  jq.tag_name release_json = Some tag ->
  tag <> "" -> tag <> "null" ->
  fst (find_helm_chart_asset release_json owner repo w)
  = Return 0 ("https://github.com/" ++ jq.text release_json ++ "/" ++ owner
              ++ "/archive/refs/tags/" ++ tag ++ ".tar.gz").
Proof.
  intros Hno Htag Hne Hnn. unfold find_helm_chart_asset, jq.first_url.
  rewrite (filter_nothing _ _ Hno). simpl. rewrite Htag. simpl.
  destruct (String.eqb_spec tag "") as [E|_]; [contradiction|].
  destruct (String.eqb_spec tag "null") as [E|_]; [contradiction|].
  reflexivity.
Qed.

Lemma find_helm_chart_asset_ignores_project
      (release_json : jq.release) (owner repo repo' : string) (w : World) :
  find_helm_chart_asset release_json owner repo w
  = find_helm_chart_asset release_json owner repo' w.
Proof. reflexivity. Qed.

(** C1.  For owner acme, project widget and a release v2.3.1 without
    assets, [find_helm_chart_asset] called as [process_upstream] calls it
    prints a URL whose path starts with the release document followed by
    the owner; it is not the archive URL of acme/widget. *)
Theorem find_helm_chart_asset_fallback_misplaces_parameters :
  fst (find_helm_chart_asset widget_release "acme" "widget" quiet)
  = Return 0 ("https://github.com/" ++ widget_text
              ++ "/acme/archive/refs/tags/v2.3.1.tar.gz")
  /\ fst (find_helm_chart_asset widget_release "acme" "widget" quiet)
     <> Return 0 "https://github.com/acme/widget/archive/refs/tags/v2.3.1.tar.gz".
Proof.
  split.
  - reflexivity.
  - intros H. vm_compute in H. discriminate H.
Qed.

(** When a pattern-matching asset with a usable URL exists, the first such
    asset in list order decides, and the fallback is not built. *)
Lemma find_helm_chart_asset_first_match
      (release_json : jq.release) (owner repo : string) (w : World)
      (pre post : list jq.asset) (a : jq.asset) :
  jq.assets release_json = (pre ++ a :: post)%list ->
  (forall b, In b pre -> test_i asset_pattern (jq.name b) = false) ->
  test_i asset_pattern (jq.name a) = true ->
  jq.browser_download_url a <> "" ->
  jq.browser_download_url a <> "null" ->
  find_helm_chart_asset release_json owner repo w
  = (Return 0 (jq.browser_download_url a), w).
Proof.
  intros Heq Hpre Ha Hne Hnn. unfold find_helm_chart_asset, jq.first_url.
  rewrite Heq, filter_app, (filter_nothing _ _ Hpre).
  cbn [app filter]. rewrite Ha.
  destruct (String.eqb_spec (jq.browser_download_url a) "") as [E|_];
    [contradiction|].
  destruct (String.eqb_spec (jq.browser_download_url a) "null") as [E|_];
    [contradiction|].
  reflexivity.
Qed.

(** The pattern has [tgz] where the keyword list of the Go package has
    [.tgz]: a name with "tgz" and no dot before it is selected here. *)
Example asset_pattern_without_dot :
  test_i asset_pattern "notes-tgz" = true
  /\ existsb (fun k => Str.Contains (Str.ToLower "notes-tgz") k) upstream.keywords
     = false.
Proof. split; reflexivity. Qed.

(** The file name of this script does not depend on the URL. *)
Example process_upstream_filename_sample :
  process_upstream_filename "acme" "widget" "v2.3.1" = "acme-widget-v2.3.1.tgz".
Proof. reflexivity. Qed.

End merge_charts_facts.

(** ** The fetcher: [download_file] in both scripts *)

Module download_facts.
Import sh.

Import merge_charts_cases.
Import download_cases.

Lemma curl_fo_http_error
      (host : nat -> string -> curl_outcome) (url output_file : string) (w : World) :
  (forall n, exists status, host n url = HttpError status) ->
  curl_fo host url output_file w = (false, count_curl w).
Proof.
  intros H. unfold curl_fo. destruct (H (curl_calls w)) as [status Hs].
  now rewrite Hs.
Qed.


Lemma download_file_rejected
      (host : nat -> string -> curl_outcome) (file_mime : string -> string)
      (url output_file : string) (w : World) :
  (forall n, exists status, host n url = HttpError status) ->
  rejected_three_times host file_mime url output_file w.
Proof.
  intros H. split.
  - unfold merge_charts.download_file, merge_charts.max_retries.
    cbn [Nat.sub merge_charts.download_loop].
    rewrite (curl_fo_http_error host url output_file _ H).
    cbn [Nat.add Nat.ltb Nat.leb merge_charts.max_retries].
    rewrite (curl_fo_http_error host url output_file _ H).
    cbn [Nat.add Nat.ltb Nat.leb merge_charts.max_retries].
    rewrite (curl_fo_http_error host url output_file _ H).
    cbn [Nat.add Nat.ltb Nat.leb merge_charts.max_retries].
    unfold merge_charts.error. cbn.
    repeat split.
    + lia.
    + now rewrite <- !app_assoc.
    + eexists. reflexivity.
  - unfold merge_charts_tgz.download_file, merge_charts_tgz.MAX_RETRIES.
    cbn [merge_charts_tgz.download_attempts].
    rewrite (curl_fo_http_error host url output_file _ H).
    cbn [andb Nat.ltb Nat.leb merge_charts_tgz.MAX_RETRIES].
    rewrite (curl_fo_http_error host url output_file _ H).
    cbn [andb Nat.ltb Nat.leb merge_charts_tgz.MAX_RETRIES].
    rewrite (curl_fo_http_error host url output_file _ H).
    cbn [andb Nat.ltb Nat.leb merge_charts_tgz.MAX_RETRIES].
    cbn.
    repeat split.
    + lia.
    + now rewrite <- !app_assoc.
    + eexists. reflexivity.
Qed.



(** With no file there before, none is there afterwards. *)
Corollary download_file_creates_nothing
          (host : nat -> string -> curl_outcome) (file_mime : string -> string)
          (url output_file : string) (w : World) :
  (forall n, exists status, host n url = HttpError status) ->
  files w output_file = None ->
  files (snd (merge_charts.download_file host file_mime url output_file w))
        output_file = None.
Proof.
  intros H Hnone.
  pose proof (download_file_rejected host file_mime url output_file w H) as [Hk _].
  destruct (merge_charts.download_file host file_mime url output_file w) as [r w'].
  destruct Hk as (_ & _ & Hf & _). simpl. now rewrite Hf.
Qed.

(** The outcome and the log do not tell a rejected request from an
    unreachable host. *)
Example download_file_failure_has_no_reason :
  merge_charts.download_file always_500 gzip_mime "https://x/w.tgz" staged_path quiet
  = merge_charts.download_file unreachable gzip_mime "https://x/w.tgz" staged_path quiet.
Proof. reflexivity. Qed.

(** A transfer that breaks off leaves what had arrived at the destination:
    neither script removes it. *)
Example download_file_keeps_partial_file :
  files (snd (merge_charts.download_file
                (fun _ _ => ConnectionError (Some "trunc")) gzip_mime
                "https://x/w.tgz" staged_path quiet)) staged_path
  = Some "trunc".
Proof. reflexivity. Qed.

End download_facts.

(** ** The multi-upstream run: [main] in both scripts *)

Module main_facts.
Import sh.
Import main_cases.

(** *** [scripts/merge-charts.sh] *)

(** C4.  In the run in which the first upstream is processed successfully
    and the release lookup of the second one answers "not found", the script
    hands only the first upstream to [process_upstream]: the arithmetic
    command that counts the success has status 1, and under [set -e] the
    shell exits there with status 1.  The second upstream is never processed
    and no summary line is logged. *)
Theorem script_stops_after_first_upstream :
  let '(status, st) := merge_charts.script second_not_found None true true
                         "helm-wrapper/values.yaml" in
  status = 1
  /\ merge_charts.invoked st = [("envoyproxy", "gateway")]
  /\ merge_charts.processed_count st = 1
  /\ merge_charts.failed_count st = 0
  /\ merge_charts.lines st = [(INFO, "Starting chart merge process");
                              (INFO, "All required tools available")].
Proof. vm_compute. repeat split. Qed.

Section AnyRun.

Variable process_upstream : string -> string -> bool.

(** Whatever the upstreams answer, with [set -e] on the loop ends in its
    first iteration. *)
Lemma main_loop_errexit (upstream : string) (rest : list string)
      (st : merge_charts.MainState) :
  merge_charts.processed_count st = 0 ->
  merge_charts.failed_count st = 0 ->
  exists st',
    merge_charts.main_loop true process_upstream (upstream :: rest) st
    = (Exit 1, st')
    /\ merge_charts.invoked st'
       = (merge_charts.invoked st ++ [Str.read_owner_repo upstream])%list
    /\ merge_charts.lines st' = merge_charts.lines st.
Proof.
  intros Hp Hf. cbn [merge_charts.main_loop].
  destruct (Str.read_owner_repo upstream) as [owner repo].
  cbn [merge_charts.processed_count merge_charts.failed_count
       merge_charts.invoked merge_charts.lines].
  rewrite Hp, Hf.
  destruct (process_upstream owner repo); cbn; eexists; repeat split.
Qed.

(** With [set -e] off, the loop as written goes through the whole list,
    counts successes and failures, and never exits. *)
Lemma main_loop_without_errexit (ups : list string) :
  forall st, exists st',
    merge_charts.main_loop false process_upstream ups st = (Return 0 tt, st')
    /\ merge_charts.invoked st'
       = (merge_charts.invoked st ++ map Str.read_owner_repo ups)%list
    /\ merge_charts.processed_count st'
       = merge_charts.processed_count st + count_ok process_upstream ups
    /\ merge_charts.processed_count st' + merge_charts.failed_count st'
       = merge_charts.processed_count st + merge_charts.failed_count st
         + List.length ups.
Proof.
  induction ups as [|upstream rest IH]; intros st.
  - exists st. cbn. rewrite app_nil_r. repeat split; lia.
  - cbn [merge_charts.main_loop count_ok map List.length].
    destruct (Str.read_owner_repo upstream) as [owner repo].
    destruct (process_upstream owner repo); cbn [post_increment andb];
      match goal with
      | |- context [merge_charts.main_loop false process_upstream rest ?s] =>
          destruct (IH s) as (st' & Hrun & Hinv & Hcount & Hsum);
          exists st'; rewrite Hrun, Hinv, Hcount;
          split; [reflexivity|];
          cbn in *; rewrite <- ?app_assoc; repeat split; try lia
      end.
Qed.

End AnyRun.

(** Without [set -e] the same run goes through all four upstreams, logs
    three successes and one failure, and ends with status 1. *)
Example main_without_errexit_aggregates :
  let '(r, st) := merge_charts.main_over false second_not_found None true true
                    "helm-wrapper/values.yaml" merge_charts.upstreams in
  r = Exit 1
  /\ List.length (merge_charts.invoked st) = 4
  /\ merge_charts.processed_count st = 3
  /\ merge_charts.failed_count st = 1
  /\ In (INFO, "Chart merge completed: 3 successful, 1 failed") (merge_charts.lines st).
Proof. vm_compute. repeat split. auto 10. Qed.

(** *** The suffix-matching script *)

(** The same slip ends this script after its first repository. *)
Example script_tgz_stops_after_first_repo :
  let '(status, st) := merge_charts_tgz.script second_repo_fails None true []
                         "helm-wrapper/upstream-charts" "helm-wrapper/values.yaml" in
  status = 1
  /\ merge_charts_tgz.invoked st = ["envoyproxy/gateway"].
Proof. vm_compute. repeat split. Qed.

(** Without [set -e] this [main] goes through every repository, and then
    returns 0 although a repository failed: its last command is a log
    line. *)
Example main_tgz_without_errexit_returns_zero :
  let '(r, st) := merge_charts_tgz.main_over false second_repo_fails None true []
                    "helm-wrapper/upstream-charts" "helm-wrapper/values.yaml"
                    merge_charts_tgz.REPOS in
  r = Return 0 tt
  /\ merge_charts_tgz.invoked st = merge_charts_tgz.REPOS
  /\ merge_charts_tgz.processed_count st = 2
  /\ merge_charts_tgz.failed_count st = 1.
Proof. vm_compute. repeat split. Qed.

End main_facts.

(** ** The local file name and the tag check: the suffix-matching script *)

Module resolve_facts.
Import sh merge_charts_tgz.

Import merge_charts_cases.
Import resolve_cases.






(** Without the repository name in the document, nothing is resolved. *)
Example resolve_artifact_needs_repository_name :
  fst (resolve_artifact "acme/widget" widget_release quiet)
  = Return 1 ("", "").
Proof. reflexivity. Qed.

(** The fallback of this script is built from the document's repository
    name, not from the configured one. *)
Example get_download_url_follows_document :
  fst (get_download_url
         {| jq.text := ""; jq.tag_name := Some "v2.3.1"; jq.assets := [];
            jq.repository_full_name := Some "fork/widget" |}
         "acme/widget" quiet)
  = Return 0 "https://github.com/fork/widget/archive/refs/tags/v2.3.1.tar.gz".
Proof. reflexivity. Qed.

(** The tag check that the Go lookup lacks: this script resolves nothing
    for a release without a tag. *)
Lemma get_download_url_requires_tag (api_json : jq.release) (repo_key : string)
      (w : World) :
  jq.tag_name api_json = None ->
  fst (get_download_url api_json repo_key w) = Return 1 "".
Proof.
  intros H. unfold get_download_url. now rewrite H.
Qed.

End resolve_facts.

(** ** More of [pkg/upstream] *)

Module upstream_more_facts.
Import github upstream.
Import upstream_cases upstream_more_cases.

Lemma scan_assets_In (assets : list ReleaseAsset) :
  scan_assets assets <> "" ->
  exists a, In a assets
            /\ matches_keyword a = true
            /\ scan_assets assets = GetBrowserDownloadURL a.
Proof.
  induction assets as [|x rest IH]; intros H.
  - now contradiction H.
  - rewrite upstream_facts.scan_assets_cons in *.
    destruct (matches_keyword x) eqn:Hx.
    + exists x. repeat split; [now left | exact Hx].
    + destruct (IH H) as (a & Ha & Hm & Hu). exists a. repeat split; auto.
      now right.
Qed.

Lemma fetch_ok_inversion
      (client : string -> string -> RepositoryRelease + string)
      (owner repo : string) (chart : ChartRelease) :
  FetchLatestRelease client owner repo = inl chart ->
  Owner chart = owner
  /\ Repo chart = repo
  /\ URL chart <> ""
  /\ exists rel a,
      client owner repo = inl rel
      /\ In a (Assets rel)
      /\ matches_keyword a = true
      /\ URL chart = GetBrowserDownloadURL a
      /\ Version chart = GetTagName rel.
Proof.
  unfold FetchLatestRelease.
  destruct (client owner repo) as [rel|err]; [|discriminate].
  destruct (String.eqb_spec (findChartAsset rel) "") as [E|Hne]; [discriminate|].
  intros H. injection H as <-. cbn [Owner Repo URL Version].
  repeat split; try assumption.
  destruct (scan_assets_In (Assets rel) Hne) as (a & Ha & Hm & Hu).
  exists rel, a. repeat split; assumption.
Qed.

(** X1.  A chart record returned by [FetchLatestRelease] is for the
    upstream that was asked for, its URL is not empty and is the download
    URL of an asset of the release whose name matches a keyword, and its
    version is the release's tag. *)
Theorem FetchLatestRelease_chart_wellformed
        (client : string -> string -> RepositoryRelease + string)
        (owner repo : string) (chart : ChartRelease) :
  FetchLatestRelease client owner repo = inl chart ->
  Owner chart = owner
  /\ Repo chart = repo
  /\ URL chart <> ""
  /\ exists rel a,
      client owner repo = inl rel
      /\ In a (Assets rel)
      /\ matches_keyword a = true
      /\ URL chart = GetBrowserDownloadURL a
      /\ Version chart = GetTagName rel.
Proof. exact (fetch_ok_inversion client owner repo chart). Qed.

Lemma FetchLatestRelease_chart_wellformed_witness :
  Owner (mkChart "acme" "widget" "v2.3.1" "https://x/widget.tgz") = "acme"
  /\ Repo (mkChart "acme" "widget" "v2.3.1" "https://x/widget.tgz") = "widget"
  /\ URL (mkChart "acme" "widget" "v2.3.1" "https://x/widget.tgz") <> ""
  /\ exists rel a,
      same_release sample_release "acme" "widget" = inl rel
      /\ In a (Assets rel)
      /\ matches_keyword a = true
      /\ URL (mkChart "acme" "widget" "v2.3.1" "https://x/widget.tgz")
         = GetBrowserDownloadURL a
      /\ Version (mkChart "acme" "widget" "v2.3.1" "https://x/widget.tgz")
         = GetTagName rel.
Proof.
  apply (FetchLatestRelease_chart_wellformed (same_release sample_release)
           "acme" "widget").
  reflexivity.
Defined.

(** X2.  The first asset whose name matches a keyword decides alone: when
    it carries no download URL the lookup fails with "no chart asset
    found", whatever assets follow it. *)
Theorem FetchLatestRelease_urlless_match_hides_later_assets
        (client : string -> string -> RepositoryRelease + string)
        (owner repo : string) (rel : RepositoryRelease)
        (pre post : list ReleaseAsset) (a : ReleaseAsset) :
  client owner repo = inl rel ->
  Assets rel = (pre ++ a :: post)%list ->
  (forall b, In b pre -> matches_keyword b = false) ->
  matches_keyword a = true ->
  GetBrowserDownloadURL a = "" ->
  FetchLatestRelease client owner repo
  = inr ("no chart asset found for " ++ owner ++ "/" ++ repo).
Proof.
  intros Hcl Heq Hpre Ha Hurl. unfold FetchLatestRelease, findChartAsset.
  rewrite Hcl, Heq. clear Heq.
  assert (Hs : scan_assets (pre ++ a :: post) = "").
  { induction pre as [|x pre IH]; simpl app.
    - now rewrite upstream_facts.scan_assets_cons, Ha.
    - rewrite upstream_facts.scan_assets_cons, (Hpre x (or_introl eq_refl)).
      apply IH. intros b Hb. apply Hpre. now right. }
  now rewrite Hs.
Qed.

Lemma FetchLatestRelease_urlless_match_hides_later_assets_witness :
  FetchLatestRelease (same_release urlless_first) "envoyproxy" "gateway"
  = inr ("no chart asset found for " ++ "envoyproxy" ++ "/" ++ "gateway").
Proof.
  apply (FetchLatestRelease_urlless_match_hides_later_assets
           (same_release urlless_first) "envoyproxy" "gateway" urlless_first
           [] [ {| Name := Some "gateway-chart.tgz";
                   BrowserDownloadURL := Some "https://x/gateway-chart.tgz" |} ]
           {| Name := Some "gateway-helm.tgz"; BrowserDownloadURL := None |}).
  - reflexivity.
  - reflexivity.
  - intros b [].
  - reflexivity.
  - reflexivity.
Defined.

Section Charts.

Variable client : string -> string -> RepositoryRelease + string.

Lemma fetched_upstreams (ups : list (string * string)) :
  map (fun chart => (Owner chart, Repo chart)) (fetched client ups)
  = filter (fun up => negb (lookup_fails client up)) ups.
Proof.
  induction ups as [|[owner repo] rest IH]; [reflexivity|].
  unfold fetched, lookup_fails in *. cbn [flat_map filter fst snd].
  destruct (FetchLatestRelease client owner repo) as [chart|err] eqn:E.
  - cbn. rewrite IH.
    destruct (fetch_ok_inversion client owner repo chart E) as (-> & -> & _).
    reflexivity.
  - cbn. exact IH.
Qed.

Lemma fetched_urls (ups : list (string * string)) (chart : ChartRelease) :
  In chart (fetched client ups) -> URL chart <> "".
Proof.
  unfold fetched. intros H. apply in_flat_map in H as ([owner repo] & _ & H).
  cbn [fst snd] in H.
  destruct (FetchLatestRelease client owner repo) as [c|err] eqn:E; [|destruct H].
  destruct H as [<- | []].
  now destruct (fetch_ok_inversion client owner repo c E) as (_ & _ & Hu & _).
Qed.

Lemma fetched_failed_length (ups : list (string * string)) :
  List.length (fetched client ups) + List.length (failed client ups)
  = List.length ups.
Proof.
  induction ups as [|up rest IH]; [reflexivity|].
  unfold fetched, failed in *. cbn [flat_map].
  destruct (FetchLatestRelease client (fst up) (snd up));
    rewrite !List.length_app; cbn [List.length] in *; lia.
Qed.

End Charts.

(** X3.  The charts [GetUpstreamCharts] returns are those of the upstreams
    whose lookup succeeded, each upstream at most once and in the order of
    the upstream list; none has an empty URL; and every one of the four
    upstreams is accounted for, by a chart or by an error message. *)
Theorem GetUpstreamCharts_accounts_for_every_upstream
        (client : string -> string -> RepositoryRelease + string) :
  map (fun chart => (Owner chart, Repo chart)) (fst (GetUpstreamCharts client))
  = filter (fun up => negb (lookup_fails client up)) upstreams
  /\ (forall chart, In chart (fst (GetUpstreamCharts client)) -> URL chart <> "")
  /\ List.length (fst (GetUpstreamCharts client))
     + List.length (failed client upstreams) = 4.
Proof.
  unfold GetUpstreamCharts.
  rewrite upstream_facts.GetUpstreamChartsOver_spec. cbn [fst].
  split; [apply fetched_upstreams|]. split; [apply fetched_urls|].
  apply (fetched_failed_length client upstreams).
Qed.

End upstream_more_facts.

(** ** More of [pkg/helm] *)

Module helm_more_facts.
Import os helm.
Import helm_more_cases.

Lemma fold_values (values : list string) (args : list string) :
  fold_left (fun acc v => (acc ++ ["-f"; v])%list) values args
  = (args ++ flat_map (fun v => ["-f"; v]) values)%list.
Proof.
  revert args. induction values as [|v values IH]; intros args; cbn.
  - now rewrite app_nil_r.
  - rewrite IH. now rewrite <- app_assoc.
Qed.

Lemma install_args_line (releaseName chart namespace : string) (opts : HelmOptions) :
  install_args releaseName chart namespace opts
  = install_line releaseName chart namespace (Version opts) (Values opts) (DryRun opts).
Proof.
  unfold install_args, install_line. rewrite fold_values.
  destruct (String.eqb (Version opts) ""), (DryRun opts);
    cbn; rewrite ?app_nil_r, <- ?app_assoc; reflexivity.
Qed.

(** X4.  The command line of [Install] is upgrade --install, the release,
    the chart, -n with the namespace argument and --create-namespace; then
    --version only when the options carry a version; then -f for every
    values file, in the order of the options; then --dry-run --debug only
    when the options ask for it.  The [Namespace] and [ChartRepo] fields of
    the options are not used. *)
Theorem install_args_shape (releaseName chart namespace : string) (opts : HelmOptions) :
  install_args releaseName chart namespace opts
  = install_line releaseName chart namespace (Version opts) (Values opts) (DryRun opts)
  /\ forall ns repo,
      install_args releaseName chart namespace
        {| DryRun := DryRun opts; Namespace := ns; Values := Values opts;
           Version := Version opts; ChartRepo := repo |}
      = install_args releaseName chart namespace opts.
Proof.
  split; [apply install_args_line|].
  intros ns repo. now rewrite !install_args_line.
Qed.

End helm_more_facts.

(** ** The install steps *)

Example Split_sample :
  gostrings.Split "a.yaml, b.yaml,,c.yaml," "," = ["a.yaml"; " b.yaml"; ""; "c.yaml"; ""]
  /\ gostrings.Split "" "," = [""]
  /\ gostrings.Split "one" "," = ["one"].
Proof. repeat split. Qed.

Lemma Split_not_nil (s : string) (sep : ascii) : gostrings.Split s sep <> [].
Proof.
  destruct s as [|c s]; cbn; [discriminate|].
  destruct (Ascii.eqb c sep); [discriminate|].
  destruct (gostrings.Split s sep); discriminate.
Qed.

Lemma concat_cons2 (sep x y : string) (l : list string) :
  String.concat sep (x :: y :: l) = x ++ sep ++ String.concat sep (y :: l).
Proof. reflexivity. Qed.

(** Joining the pieces with the separator gives the text back. *)
Lemma Split_Join (s : string) (sep : ascii) :
  Str.Join (gostrings.Split s sep) (String sep "") = s.
Proof.
  unfold Str.Join. induction s as [|c s IH]; [reflexivity|].
  cbn [gostrings.Split]. pose proof (Split_not_nil s sep) as Hn.
  destruct (gostrings.Split s sep) as [|p ps]; [contradiction|].
  destruct (Ascii.eqb_spec c sep) as [->|Hne].
  - rewrite concat_cons2, IH. reflexivity.
  - destruct ps as [|q qs].
    + cbn in *. now rewrite IH.
    + rewrite concat_cons2 in IH. rewrite concat_cons2, <- IH. reflexivity.
Qed.

Module install_steps_facts.
Import os config net install_steps.
Import install_cases install_steps_cases.

Section Values.

Variable TrimSpace : string -> string.

Lemma append_trimmed_filter (pieces values : list string) :
  append_trimmed TrimSpace pieces values
  = (values ++ filter nonempty (map TrimSpace pieces))%list.
Proof.
  revert values. induction pieces as [|v rest IH]; intros values; cbn.
  - now rewrite app_nil_r.
  - unfold nonempty at 1. destruct (negb (String.eqb (TrimSpace v) "")).
    + rewrite IH, <- app_assoc. reflexivity.
    + apply IH.
Qed.

End Values.

(** X5.  The extra values files are the pieces of [--values-extra]
    between commas, each passed through [TrimSpace], the empty results
    dropped, in their order, appended to the values collected before; an
    empty flag adds nothing.  No empty file name is ever added. *)
Theorem add_values_extra_pieces
        (TrimSpace : string -> string) (valuesExtra : string) (values : list string) :
  add_values_extra TrimSpace valuesExtra values
  = (values ++ if String.eqb valuesExtra "" then []
               else filter nonempty (map TrimSpace (gostrings.Split valuesExtra ",")))%list
  /\ (forall v, In v (add_values_extra TrimSpace valuesExtra values) ->
                In v values \/ v <> "").
Proof.
  assert (H : add_values_extra TrimSpace valuesExtra values
              = (values ++ if String.eqb valuesExtra "" then []
                           else filter nonempty
                                  (map TrimSpace (gostrings.Split valuesExtra ",")))%list).
  { unfold add_values_extra. destruct (String.eqb valuesExtra ""); cbn.
    - now rewrite app_nil_r.
    - apply append_trimmed_filter. }
  split; [exact H|].
  intros v Hv. rewrite H in Hv. apply in_app_or in Hv as [Hv|Hv]; [now left|right].
  destruct (String.eqb valuesExtra ""); [destruct Hv|].
  apply filter_In in Hv as [_ Hne]. unfold nonempty in Hne.
  intros ->. discriminate.
Qed.

Example add_values_extra_sample :
  add_values_extra trim_blanks " a.yaml , ,b.yaml," ["/tmp/official.yaml"]
  = ["/tmp/official.yaml"; "a.yaml"; "b.yaml"].
Proof. reflexivity. Qed.

Lemma cleanup_procs
      (run : list (list string) -> list string -> ProcResult)
      (cfg : Config) (w : World) :
  procs (snd (install.cleanPreviousInstall run cfg false w))
  = (procs w ++ [uninstall_argv "eg" (NamespaceGateway cfg);
                 uninstall_argv "aieg-crd" (NamespaceAI cfg);
                 uninstall_argv "aieg" (NamespaceAI cfg)])%list.
Proof.
  unfold install.cleanPreviousInstall, install.releases, install.uninstall_each,
    helm.Uninstall, helm.NewHelmCommand, os.bind, RunInherit, start, Print, os.ret.
  cbn.
  repeat match goal with
         | |- context [match perr ?r with _ => _ end] => destruct (perr r); cbn
         end.
  all: now rewrite <- !app_assoc.
Qed.

(** X6.  A real cleanup pass starts the three uninstalls, of eg, aieg-crd
    and aieg in that order, whatever each of them answers: a failed
    uninstall does not keep the later ones from running. *)
Theorem cleanup_attempts_every_release
        (run : list (list string) -> list string -> ProcResult)
        (cfg : Config) (w : World) :
  procs (snd (install.cleanPreviousInstall run cfg false w))
  = (procs w ++ [uninstall_argv "eg" (NamespaceGateway cfg);
                 uninstall_argv "aieg-crd" (NamespaceAI cfg);
                 uninstall_argv "aieg" (NamespaceAI cfg)])%list.
Proof. exact (cleanup_procs run cfg w). Qed.

Ltac open_install :=
  unfold runInstall, install_from_step2, installEnvoyGateway, installAIGatewayCRDs,
    installAIGatewayController, installRedis, fetchRemoteValuesFile,
    install.cleanPreviousInstall, install.releases, install.uninstall_each,
    helm.RepoAdd, helm.RepoUpdate, helm.Install, helm.Execute, helm.Uninstall,
    helm.NewHelmCommand, Get, create_temp, fill, lift, net.bind, net.ret,
    os.bind, os.ret, Println, Print, RunInherit, start.

(** X7.  A dry run of the whole install returns nil and starts no process,
    whatever helm would answer and whether or not the cleanup is skipped or
    Redis is asked for; it still requests the official values file over the
    network, once, and creates at most one temporary file. *)
Theorem dry_run_install_starts_nothing
        (run : list (list string) -> list string -> ProcResult)
        (http : list string -> string -> Response)
        (CreateTemp : list (string * string) -> string + string)
        (TrimSpace : string -> string) (valuesExtra : string) (withRedis : bool)
        (cfg : Config) (e : Env) :
  let '(err, e') := runInstall run http CreateTemp TrimSpace valuesExtra withRedis
                               cfg true e in
  err = None
  /\ procs (io e') = procs (io e)
  /\ gets e' = (gets e ++ [official_values_url])%list
  /\ List.length (temps e') <= List.length (temps e) + 1.
Proof.
  open_install. cbn.
  destruct (SkipClean cfg), withRedis; cbn;
    destruct (http (gets e) official_values_url) as [err|status read read_err]; cbn;
    try destruct (status =? 200)%nat; cbn;
    try destruct (CreateTemp (temps e)) as [name|err]; cbn;
    try destruct read_err; cbn;
    rewrite ?length_map, ?List.length_app; cbn;
    repeat split; lia.
Qed.

(** *** Stopping at the first failure *)

Section Stops.

Variable run : list (list string) -> list string -> ProcResult.

Lemma required_ok_app (history l1 l2 : list (list string)) :
  required_ok run history (l1 ++ l2)
  = required_ok run history l1 && required_ok run (history ++ l1) l2.
Proof.
  revert history. induction l1 as [|a l1 IH]; intros history; cbn.
  - now rewrite app_nil_r.
  - rewrite IH, <- app_assoc. cbn. now rewrite andb_assoc.
Qed.

Lemma stops_ret_none : stops_at_first_failure run (net.ret None).
Proof.
  intros e. cbn. exists []. now rewrite app_nil_r.
Qed.

Lemma stops_execute (args : list string) :
  is_uninstall ("helm" :: args) = false ->
  stops_at_first_failure run
    (lift (helm.Execute run (helm.NewHelmCommand false) args)).
Proof.
  intros Hu e. unfold lift, helm.Execute, helm.NewHelmCommand, os.bind, os.ret,
                 RunInherit, start. cbn.
  destruct (perr (run (procs (io e)) ("helm" :: args))) as [err|] eqn:E; cbn.
  - exists ["helm" :: args]. split; [reflexivity|].
    exists [], ("helm" :: args). repeat split.
    + exact Hu.
    + rewrite app_nil_r. unfold succeeded. now rewrite E.
  - exists ["helm" :: args]. split; [reflexivity|].
    cbn. unfold succeeded. rewrite E. now rewrite orb_true_r.
Qed.

Lemma stops_then (m k : M (option string)) (f : string -> string) :
  stops_at_first_failure run m ->
  stops_at_first_failure run k ->
  stops_at_first_failure run
    (net.bind m (fun err => match err with
                            | Some e => net.ret (Some (f e))
                            | None => k
                            end)).
Proof.
  intros Hm Hk e. unfold net.bind. specialize (Hm e).
  destruct (m e) as [[err|] e1]; cbn.
  - exact Hm.
  - destruct Hm as (s1 & Hp1 & Hok1). specialize (Hk e1).
    destruct (k e1) as [[err|] e2].
    + destruct Hk as (s2 & Hp2 & before & last & Hs2 & Hok2 & Hu & Hf).
      exists (s1 ++ s2)%list. split; [now rewrite Hp2, Hp1, app_assoc|].
      exists (s1 ++ before)%list, last. repeat split.
      * now rewrite Hs2, app_assoc.
      * rewrite required_ok_app, Hok1. now rewrite <- Hp1.
      * exact Hu.
      * rewrite app_assoc, <- Hp1. exact Hf.
    + destruct Hk as (s2 & Hp2 & Hok2).
      exists (s1 ++ s2)%list. split; [now rewrite Hp2, Hp1, app_assoc|].
      rewrite required_ok_app, Hok1. now rewrite <- Hp1.
Qed.

Lemma stops_after {A : Type} (m : M A) (k : A -> M (option string)) :
  procs_kept m ->
  (forall a, stops_at_first_failure run (k a)) ->
  stops_at_first_failure run (net.bind m k).
Proof.
  intros Hm Hk e. unfold net.bind. specialize (Hm e).
  destruct (m e) as [a e1]. cbn in Hm. specialize (Hk a e1).
  destruct (k a e1) as [err e2]. now rewrite Hm in Hk.
Qed.

Lemma kept_bind {A B : Type} (m : M A) (k : A -> M B) :
  procs_kept m -> (forall a, procs_kept (k a)) -> procs_kept (net.bind m k).
Proof.
  intros Hm Hk e. unfold net.bind. specialize (Hm e).
  destruct (m e) as [a e1]. cbn in Hm. now rewrite Hk.
Qed.

Lemma kept_print (s : string) : procs_kept (lift (Print s)).
Proof. intros e. reflexivity. Qed.

Lemma kept_ret {A : Type} (a : A) : procs_kept (net.ret a).
Proof. intros e. reflexivity. Qed.

Lemma kept_fetch (http : list string -> string -> Response)
      (CreateTemp : list (string * string) -> string + string) (url : string) :
  procs_kept (fetchRemoteValuesFile http CreateTemp url).
Proof.
  intros e. unfold fetchRemoteValuesFile, Get, create_temp, fill, net.bind, net.ret.
  cbn. destruct (http (gets e) url) as [err|status read read_err]; cbn; [reflexivity|].
  destruct (status =? 200)%nat; cbn; [|reflexivity].
  destruct (CreateTemp (temps e)); cbn; [|reflexivity].
  now destruct read_err.
Qed.

Lemma stops_cleanup (cfg : Config) :
  stops_at_first_failure run (lift (install.cleanPreviousInstall run cfg false)).
Proof.
  intros e. unfold lift.
  pose proof (cleanup_procs run cfg (io e)) as Hp.
  pose proof (install_facts.cleanPreviousInstall_returns_nil run cfg false (io e)) as Hn.
  destruct (install.cleanPreviousInstall run cfg false (io e)) as [err w].
  cbn in *. subst err. eexists. split; [exact Hp|]. reflexivity.
Qed.

Lemma install_is_required (releaseName chart namespace : string)
      (opts : helm.HelmOptions) :
  is_uninstall ("helm" :: helm.install_args releaseName chart namespace opts) = false.
Proof. now rewrite helm_more_facts.install_args_line. Qed.








End Stops.

Ltac kept_tac :=
  repeat first
    [ apply kept_print
    | apply kept_ret
    | apply kept_fetch
    | apply kept_bind; [| intros ?]
    | match goal with
      | |- procs_kept (match ?x with _ => _ end) => destruct x
      end ].


Ltac stops_tac :=
  repeat first
    [ apply stops_ret_none
    | apply stops_cleanup
    | apply stops_then
    | apply stops_execute; first [reflexivity | apply install_is_required]
    | apply stops_after; [| intros ?] ].

#[local] Opaque net.bind net.ret lift helm.Execute Print
  install.cleanPreviousInstall fetchRemoteValuesFile.

(** X8.  A real run of the install stops at the first repository or
    install command that fails: when it returns an error, the last process
    it started is such a command and it failed, and every such command
    started before it succeeded; when it returns nil, every repository and
    install command it started succeeded.  Failed uninstalls of the cleanup
    step never stop the run. *)
Theorem runInstall_stops_at_first_failure
        (run : list (list string) -> list string -> ProcResult)
        (http : list string -> string -> Response)
        (CreateTemp : list (string * string) -> string + string)
        (TrimSpace : string -> string) (valuesExtra : string) (withRedis : bool)
        (cfg : Config) :
  stops_at_first_failure run
    (runInstall run http CreateTemp TrimSpace valuesExtra withRedis cfg false).
Proof.
  unfold runInstall, install_from_step2, installEnvoyGateway, installAIGatewayCRDs,
    installAIGatewayController, installRedis, helm.RepoAdd, helm.RepoUpdate,
    helm.Install, Println.
  destruct (SkipClean cfg), withRedis; cbn [negb].
  all: stops_tac.
  all: kept_tac.
Qed.


#[local] Transparent net.bind net.ret lift helm.Execute Print
  install.cleanPreviousInstall fetchRemoteValuesFile.

(** A run on a machine where everything works, with one extra values file
    and Redis. *)
Example runInstall_complete_sample :
  let '(err, e') := runInstall all_fine values_served temp_dir trim_blanks
                      " extra.yaml ," true default_cfg false start_env in
  err = None
  /\ procs (io e')
     = complete_run default_cfg true ["/tmp/envoy-ai-values-0.yaml"] ["extra.yaml"]
  /\ temps e' = [("/tmp/envoy-ai-values-0.yaml", "config: {}")]
  /\ gets e' = [official_values_url].
Proof. vm_compute. repeat split. Qed.

(** A run on a machine where [helm repo update] fails: the install of
    Envoy Gateway is given up after the second command of its step. *)
Example runInstall_update_fails_sample :
  let '(err, e') := runInstall update_fails offline temp_dir trim_blanks
                      "" false default_cfg false start_env in
  err = Some "failed to install Envoy Gateway: helm command failed: exit status 1"
  /\ procs (io e')
     = [ uninstall_argv "eg" "envoy-gateway-system";
         uninstall_argv "aieg-crd" "envoy-ai-gateway-system";
         uninstall_argv "aieg" "envoy-ai-gateway-system";
         ["helm"; "repo"; "add"; "envoyproxy"; "oci://docker.io/envoyproxy";
          "--force-update"];
         ["helm"; "repo"; "update"] ]
  /\ gets e' = [].
Proof. vm_compute. repeat split. Qed.

End install_steps_facts.

(** ** The fetcher: every run of [download_file] *)

Module download_more_facts.
Import sh.
Import merge_charts_cases download_cases download_more_cases.

Lemma curl_fo_spec (host : nat -> string -> curl_outcome)
      (url output_file : string) (w : World) :
  let '(ok, w') := curl_fo host url output_file w in
  curl_calls w' = S (curl_calls w) /\ slept w' = slept w /\ log w' = log w
  /\ match host (curl_calls w) url with
     | Transferred body => ok = true /\ files w' output_file = Some body
     | _ => ok = false
     end.
Proof.
  unfold curl_fo. destruct (host (curl_calls w) url) as [body|status|[part|]]; cbn;
    rewrite ?String.eqb_refl; repeat split.
Qed.

Lemma curl_fo_file (host : nat -> string -> curl_outcome) (url output_file : string)
      (w : World) (body : string) :
  host (curl_calls w) url = Transferred body ->
  curl_fo host url output_file w = (true, write output_file body (count_curl w)).
Proof. intros H. unfold curl_fo. now rewrite H. Qed.

Lemma exists_nonempty_written (output_file body : string) (w : World) :
  merge_charts_tgz.exists_nonempty output_file (write output_file body w)
  = (0 <? String.length body)%nat.
Proof.
  unfold merge_charts_tgz.exists_nonempty. cbn. now rewrite String.eqb_refl.
Qed.

(** One turn of the [for attempt in 1 2 3] loop. *)
Lemma tgz_attempt (host : nat -> string -> curl_outcome)
      (attempt : nat) (rest : list nat) (url output_file : string) (w : World) :
  (delivers (host (curl_calls w) url) = true
   /\ exists w', merge_charts_tgz.download_attempts host (attempt :: rest) url output_file w
                 = (Return 0 tt, w')
                 /\ curl_calls w' = S (curl_calls w) /\ slept w' = slept w
                 /\ exists body, host (curl_calls w) url = Transferred body
                                 /\ files w' output_file = Some body /\ body <> "")
  \/
  (delivers (host (curl_calls w) url) = false
   /\ exists w1, curl_calls w1 = S (curl_calls w) /\ slept w1 = slept w
      /\ merge_charts_tgz.download_attempts host (attempt :: rest) url output_file w
         = if (attempt <? merge_charts_tgz.MAX_RETRIES)%nat
           then merge_charts_tgz.download_attempts host rest url output_file
                  (sleep 2 (merge_charts_tgz.warn
                     ("Download attempt " ++ Str.of_nat attempt ++ "/"
                      ++ Str.of_nat merge_charts_tgz.MAX_RETRIES ++ " failed for " ++ url
                      ++ " - retrying...") w1))
           else (Return 1 tt,
                 merge_charts_tgz.error
                   ("Failed to download " ++ url ++ " after "
                    ++ Str.of_nat merge_charts_tgz.MAX_RETRIES ++ " attempts") w1)).
Proof.
  cbn [merge_charts_tgz.download_attempts].
  pose proof (curl_fo_spec host url output_file w) as H.
  destruct (curl_fo host url output_file w) as [ok w1].
  destruct H as (Hc & Hs & _ & H).
  destruct (host (curl_calls w) url) as [body|status|part]; cbn [delivers].
  - destruct H as [-> Hf]. unfold merge_charts_tgz.exists_nonempty. rewrite Hf.
    destruct (0 <? String.length body)%nat eqn:Hb; cbn [andb].
    + left. split; [reflexivity|]. eexists. split; [reflexivity|].
      cbn. repeat split; try assumption. exists body. repeat split; [assumption|].
      intros ->. discriminate.
    + right. split; [reflexivity|]. exists w1. repeat split; assumption.
  - subst ok. right. split; [reflexivity|]. exists w1. repeat split; assumption.
  - subst ok. right. split; [reflexivity|]. exists w1. repeat split; assumption.
Qed.

Ltac tgz_step attempt rest :=
  match goal with
  | |- context [merge_charts_tgz.download_attempts ?host (attempt :: rest) ?url ?out ?w] =>
      let Hd := fresh "Hd" in
      let w' := fresh "w" in
      let Hc := fresh "Hc" in
      let Hs := fresh "Hs" in
      let Hrun := fresh "Hrun" in
      let body := fresh "body" in
      let Hh := fresh "Hh" in
      let Hf := fresh "Hf" in
      let Hne := fresh "Hne" in
      destruct (tgz_attempt host attempt rest url out w)
        as [(Hd & w' & Hrun & Hc & Hs & body & Hh & Hf & Hne)
           |(Hd & w' & Hc & Hs & Hrun)];
      rewrite Hrun; clear Hrun;
      cbn [curl_calls slept sleep merge_charts_tgz.warn merge_charts_tgz.info
           merge_charts_tgz.error say] in *
  end.

Lemma download_file_tgz_run (host : nat -> string -> curl_outcome)
      (url output_file : string) (w : World) :
  download_tgz_summary host url output_file w.
Proof.
  unfold download_tgz_summary, merge_charts_tgz.download_file.
  cbn [first_delivery].
  tgz_step 1 [2; 3].
  { rewrite Hd. repeat split; try lia.
    - now rewrite Hs, app_nil_r.
    - exists body. rewrite Nat.add_0_r. now repeat split. }
  rewrite Hd. change (1 <? merge_charts_tgz.MAX_RETRIES)%nat with true. cbv iota.
  tgz_step 2 [3].
  { rewrite Hc in Hd0, Hh. rewrite Hd0. cbn [option_map]. repeat split; try lia.
    - rewrite Hs0. cbn. now rewrite Hs.
    - exists body. rewrite Nat.add_1_r. now repeat split. }
  rewrite Hc in Hd0. rewrite Hd0.
  change (2 <? merge_charts_tgz.MAX_RETRIES)%nat with true. cbv iota.
  tgz_step 3 (@nil nat).
  { rewrite Hc0, Hc in Hd1, Hh. rewrite Hd1. cbn [option_map]. repeat split; try lia.
    - rewrite Hs1, Hs0, Hs. cbn. now rewrite <- !app_assoc.
    - exists body. replace (curl_calls w + 2) with (S (S (curl_calls w))) by lia.
      now repeat split. }
  rewrite Hc0, Hc in Hd1. rewrite Hd1. cbn [option_map].
  change (3 <? merge_charts_tgz.MAX_RETRIES)%nat with false. cbv iota.
  cbn. repeat split; try lia.
  rewrite Hs1, Hs0, Hs. now rewrite <- !app_assoc.
Qed.

Lemma validate_download_spec (file_mime : string -> string) (url output_file : string)
      (w : World) (body : string) :
  files w output_file = Some body ->
  exists w', merge_charts.validate_download file_mime url output_file w
             = (if String.eqb body "" then Exit 1 else Return 0 tt, w')
             /\ curl_calls w' = curl_calls w /\ slept w' = slept w
             /\ files w' = files w.
Proof.
  intros Hf. unfold merge_charts.validate_download. rewrite Hf.
  destruct body as [|c body]; cbn [String.length Nat.leb String.eqb].
  - eexists. split; [reflexivity|]. now cbn.
  - eexists. split; [reflexivity|].
    match goal with |- context [if ?c then _ else _] => destruct c end; now cbn.
Qed.

(** One turn of the [while] loop. *)
Lemma loop_attempt (host : nat -> string -> curl_outcome) (file_mime : string -> string)
      (remaining retry_count : nat) (url output_file : string) (w : World) :
  (exists body w',
      host (curl_calls w) url = Transferred body
      /\ merge_charts.download_loop host file_mime (S remaining) retry_count
           url output_file w
         = (if String.eqb body "" then Exit 1 else Return 0 tt, w')
      /\ curl_calls w' = S (curl_calls w) /\ slept w' = slept w
      /\ files w' output_file = Some body)
  \/
  (transfers (host (curl_calls w) url) = false
   /\ exists w1, curl_calls w1 = S (curl_calls w) /\ slept w1 = slept w
      /\ merge_charts.download_loop host file_mime (S remaining) retry_count
           url output_file w
         = merge_charts.download_loop host file_mime remaining (retry_count + 1)
             url output_file
             (if (retry_count + 1 <? merge_charts.max_retries)%nat
              then sleep 2 (merge_charts.warn
                              ("Download failed, retrying ("
                               ++ Str.of_nat (retry_count + 1) ++ "/"
                               ++ Str.of_nat merge_charts.max_retries ++ ")") w1)
              else w1)).
Proof.
  cbn [merge_charts.download_loop].
  pose proof (curl_fo_spec host url output_file w) as H.
  destruct (curl_fo host url output_file w) as [ok w1].
  destruct H as (Hc & Hs & _ & H).
  destruct (host (curl_calls w) url) as [body|status|part]; cbn [transfers].
  - destruct H as [-> Hf]. left.
    destruct (validate_download_spec file_mime url output_file w1 body Hf)
      as (w' & Hv & Hc' & Hs' & Hf').
    rewrite Hv. exists body, w'.
    split; [reflexivity|]. split.
    + now destruct (String.eqb body "").
    + rewrite Hc', Hs', Hf'. now repeat split.
  - subst ok. right. split; [reflexivity|]. exists w1. now repeat split.
  - subst ok. right. split; [reflexivity|]. exists w1. now repeat split.
Qed.

Ltac loop_step :=
  match goal with
  | |- context [merge_charts.download_loop ?host ?mime (S ?r) ?rc ?url ?out ?w] =>
      let Hd := fresh "Hd" in
      let w' := fresh "w" in
      let Hc := fresh "Hc" in
      let Hs := fresh "Hs" in
      let Hrun := fresh "Hrun" in
      let body := fresh "body" in
      let Hh := fresh "Hh" in
      let Hf := fresh "Hf" in
      destruct (loop_attempt host mime r rc url out w)
        as [(body & w' & Hh & Hrun & Hc & Hs & Hf)
           |(Hd & w' & Hc & Hs & Hrun)];
      rewrite Hrun; clear Hrun;
      cbn [curl_calls slept sleep merge_charts.warn merge_charts.info say
           Nat.add Nat.ltb Nat.leb merge_charts.max_retries] in *
  end.

Lemma download_file_run (host : nat -> string -> curl_outcome)
      (file_mime : string -> string) (url output_file : string) (w : World) :
  download_summary host file_mime url output_file w.
Proof.
  unfold download_summary, merge_charts.download_file.
  cbn [first_transfer Nat.sub merge_charts.max_retries].
  loop_step.
  { rewrite Hh. repeat split; try lia; try assumption.
    now rewrite Hs, app_nil_r. }
  destruct (host (curl_calls w) url) as [|?|?] eqn:H0; [discriminate| |].
  all: loop_step.
  1,3: rewrite Hc in Hh; rewrite Hh; cbn [option_map fst snd];
       repeat split; try lia; try assumption; rewrite Hs0; cbn; now rewrite Hs.
  all: rewrite Hc in Hd0;
    destruct (host (S (curl_calls w)) url) as [|?|?] eqn:H1; [discriminate| |].
  all: loop_step.
  all: rewrite Hc0, Hc in *.
  1,3,5,7: rewrite Hh; cbn [option_map fst snd];
       repeat split; try lia; try assumption;
       rewrite Hs1, Hs0, Hs; cbn; now rewrite <- !app_assoc.
  all: destruct (host (S (S (curl_calls w))) url) as [|?|?] eqn:H2; [discriminate| |].
  all: cbn [option_map merge_charts.download_loop]; unfold merge_charts.error; cbn.
  all: repeat split; try lia.
  all: rewrite Hs1, Hs0, Hs; now rewrite <- !app_assoc.
Qed.

(** X10.  Every run of [download_file] in the suffix-matching script.
    The download succeeds exactly when one of the first three curl
    processes transfers a body that is not empty; it then stops at the
    first such process, having slept two seconds after each earlier one,
    and that body is at the destination.  Otherwise it returns 1 after
    three processes and two sleeps.  It never ends the shell and never
    starts a fourth process. *)
Theorem download_file_tgz_outcome
        (host : nat -> string -> curl_outcome) (url output_file : string) (w : World) :
  let '(r, w') := merge_charts_tgz.download_file host url output_file w in
  match first_delivery host url (curl_calls w) 3 with
  | Some k =>
      r = Return 0 tt
      /\ curl_calls w' = curl_calls w + S k
      /\ slept w' = (slept w ++ repeat 2 k)%list
      /\ exists body, host (curl_calls w + k) url = Transferred body
                      /\ files w' output_file = Some body
                      /\ body <> ""
  | None =>
      r = Return 1 tt
      /\ curl_calls w' = curl_calls w + 3
      /\ slept w' = (slept w ++ [2; 2])%list
  end.
Proof. exact (download_file_tgz_run host url output_file w). Qed.

(** X11.  Every run of [download_file] in [merge-charts.sh].  The first
    of the first three curl processes that transfers a body ends the loop:
    the body is at the destination, and the function returns 0 when the
    body is not empty and ends the shell with [exit 1] when it is, through
    [validate_download]; each earlier process was followed by a sleep of
    two seconds.  When none of the three transfers a body the shell is
    ended with [exit 1] after two sleeps.  The function never returns a
    status other than 0: every failure ends the shell. *)
Theorem download_file_outcome
        (host : nat -> string -> curl_outcome) (file_mime : string -> string)
        (url output_file : string) (w : World) :
  let '(r, w') := merge_charts.download_file host file_mime url output_file w in
  match first_transfer host url (curl_calls w) 3 with
  | Some (k, body) =>
      r = (if String.eqb body "" then Exit 1 else Return 0 tt)
      /\ curl_calls w' = curl_calls w + S k
      /\ slept w' = (slept w ++ repeat 2 k)%list
      /\ files w' output_file = Some body
  | None =>
      r = Exit 1
      /\ curl_calls w' = curl_calls w + 3
      /\ slept w' = (slept w ++ [2; 2])%list
  end.
Proof. exact (download_file_run host file_mime url output_file w). Qed.

(** X12.  A host that answers every request with an empty body: the
    download of [merge-charts.sh] ends the shell with [exit 1] after the
    first curl process, without a retry; the download of the
    suffix-matching script runs its three processes with two sleeps and
    returns 1.  Both leave the empty file at the destination. *)
Theorem empty_answer_ends_one_script_and_is_retried_by_the_other
        (host : nat -> string -> curl_outcome) (file_mime : string -> string)
        (url output_file : string) (w : World) :
  (forall n, host n url = Transferred "") ->
  empty_answer_runs host file_mime url output_file w.
Proof.
  intros H. split.
  - pose proof (download_file_run host file_mime url output_file w) as Hr.
    unfold download_summary in Hr. cbn [first_transfer] in Hr. rewrite H in Hr.
    destruct (merge_charts.download_file host file_mime url output_file w) as [r w'].
    cbn in Hr. destruct Hr as (-> & Hc & Hs & Hf).
    rewrite app_nil_r in Hs. now repeat split.
  - unfold merge_charts_tgz.download_file.
    cbn [merge_charts_tgz.download_attempts].
    rewrite (curl_fo_file host url output_file _ "") by apply H.
    rewrite exists_nonempty_written.
    cbn [andb String.length Nat.ltb Nat.leb merge_charts_tgz.MAX_RETRIES].
    rewrite (curl_fo_file host url output_file _ "") by apply H.
    rewrite exists_nonempty_written.
    cbn [andb String.length Nat.ltb Nat.leb merge_charts_tgz.MAX_RETRIES].
    rewrite (curl_fo_file host url output_file _ "") by apply H.
    rewrite exists_nonempty_written.
    cbn [andb String.length Nat.ltb Nat.leb merge_charts_tgz.MAX_RETRIES].
    unfold merge_charts_tgz.error, merge_charts_tgz.warn, merge_charts_tgz.info.
    cbn [curl_calls slept files say sleep write count_curl].
    rewrite String.eqb_refl.
    repeat split; try lia. now rewrite <- !app_assoc.
Qed.

Lemma empty_answer_ends_one_script_and_is_retried_by_the_other_witness :
  empty_answer_runs always_empty gzip_mime "https://x/widget.tgz" staged_path quiet.
Proof.
  apply (empty_answer_ends_one_script_and_is_retried_by_the_other
           always_empty gzip_mime "https://x/widget.tgz" staged_path quiet).
  intros n. reflexivity.
Defined.

(** Two rejected requests, then the chart: both downloads succeed at the
    third process. *)
Example third_attempt_succeeds :
  (let '(r, w') := merge_charts.download_file third_time_lucky gzip_mime
                     "https://x/widget.tgz" staged_path quiet in
   r = Return 0 tt /\ curl_calls w' = 3 /\ slept w' = [2; 2]
   /\ files w' staged_path = Some "chart bytes")
  /\
  (let '(r, w') := merge_charts_tgz.download_file third_time_lucky
                     "https://x/widget.tgz" staged_path quiet in
   r = Return 0 tt /\ curl_calls w' = 3 /\ slept w' = [2; 2]
   /\ files w' staged_path = Some "chart bytes").
Proof. vm_compute. repeat split. Qed.

End download_more_facts.

(** ** Both staging scripts, whatever the upstreams answer *)

Module main_more_facts.
Import sh.

(** With [set -e] on and both counters at 0, the loop of
    [merge-charts.sh] ends the shell in its first turn. *)
Lemma main_loop_first_turn (process_upstream : string -> string -> bool)
      (upstream : string) (rest : list string) (st : merge_charts.MainState) :
  merge_charts.processed_count st = 0 ->
  merge_charts.failed_count st = 0 ->
  exists st',
    merge_charts.main_loop true process_upstream (upstream :: rest) st = (Exit 1, st')
    /\ merge_charts.invoked st'
       = (merge_charts.invoked st ++ [Str.read_owner_repo upstream])%list
    /\ merge_charts.lines st' = merge_charts.lines st
    /\ merge_charts.processed_count st' + merge_charts.failed_count st' = 1.
Proof.
  intros Hp Hf. cbn [merge_charts.main_loop].
  destruct (Str.read_owner_repo upstream) as [owner repo].
  cbn [merge_charts.processed_count merge_charts.failed_count
       merge_charts.invoked merge_charts.lines].
  rewrite Hp, Hf.
  destruct (process_upstream owner repo); cbn; eexists; repeat split.
Qed.

(** The same for the loop of the suffix-matching script. *)
Lemma main_loop_tgz_first_turn (process_repo_ok : string -> bool)
      (owner_repo : string) (rest : list string) (st : merge_charts_tgz.MainState) :
  merge_charts_tgz.processed_count st = 0 ->
  merge_charts_tgz.failed_count st = 0 ->
  exists st',
    merge_charts_tgz.main_loop true process_repo_ok (owner_repo :: rest) st
    = (Exit 1, st')
    /\ merge_charts_tgz.invoked st' = (merge_charts_tgz.invoked st ++ [owner_repo])%list
    /\ merge_charts_tgz.lines st' = merge_charts_tgz.lines st
    /\ merge_charts_tgz.skipped_count st' = merge_charts_tgz.skipped_count st
    /\ merge_charts_tgz.processed_count st' + merge_charts_tgz.failed_count st' = 1.
Proof.
  intros Hp Hf. cbn [merge_charts_tgz.main_loop].
  cbn [merge_charts_tgz.processed_count merge_charts_tgz.failed_count
       merge_charts_tgz.invoked merge_charts_tgz.lines].
  rewrite Hp, Hf.
  destruct (process_repo_ok owner_repo); cbn; eexists; repeat split.
Qed.

(** X13.  Neither staging script ever exits with status 0.  When a
    required tool is missing no upstream is processed.  Otherwise exactly
    the first upstream of the list is processed, and whether that succeeds
    or fails the arithmetic command that counts it ends the shell with
    status 1 under [set -e]: one counter is at 1, the other at 0, and nothing
    is logged after the line about the tools, so no summary either. *)
Theorem staging_scripts_never_exit_zero :
  (forall (process_upstream : string -> string -> bool) (missing_tool : option string)
          (values_file_present values_rewritten : bool) (VALUES_FILE : string),
      let '(status, st) := merge_charts.script process_upstream missing_tool
                             values_file_present values_rewritten VALUES_FILE in
      status = 1
      /\ match missing_tool with
         | Some tool =>
             merge_charts.invoked st = []
             /\ merge_charts.lines st
                = [(INFO, "Starting chart merge process");
                   (ERROR, "Required tool not found: " ++ tool)]
         | None =>
             merge_charts.invoked st = [("envoyproxy", "gateway")]
             /\ merge_charts.processed_count st + merge_charts.failed_count st = 1
             /\ merge_charts.lines st
                = [(INFO, "Starting chart merge process");
                   (INFO, "All required tools available")]
         end)
  /\
  (forall (process_repo_ok : string -> bool) (missing_tool : option string)
          (values_updated : bool) (artifacts : list string)
          (OUTPUT_DIR VALUES_FILE : string),
      let '(status, st) := merge_charts_tgz.script process_repo_ok missing_tool
                             values_updated artifacts OUTPUT_DIR VALUES_FILE in
      status = 1
      /\ match missing_tool with
         | Some tool =>
             merge_charts_tgz.invoked st = []
             /\ exists header,
                 merge_charts_tgz.lines st
                 = (header ++ [(ERROR, ("Required tool not found: " ++ tool)%string);
                               (ERROR, "Tool validation failed")])%list
         | None =>
             merge_charts_tgz.invoked st = ["envoyproxy/gateway"]
             /\ merge_charts_tgz.processed_count st + merge_charts_tgz.failed_count st = 1
             /\ merge_charts_tgz.skipped_count st = 0
             /\ exists header,
                 merge_charts_tgz.lines st
                 = (header ++ [(INFO, "All required tools available")])%list
         end).
Proof.
  split.
  - intros process_upstream missing_tool vp vr VF.
    unfold merge_charts.script, merge_charts.script_over, merge_charts.main_over.
    destruct missing_tool as [tool|]; [cbn; repeat split|].
    unfold merge_charts.upstreams.
    match goal with
    | |- context [merge_charts.main_loop true process_upstream (?u :: ?rest) ?st] =>
        destruct (main_loop_first_turn process_upstream u rest st eq_refl eq_refl)
          as (st' & Hrun & Hinv & Hlines & Hcount);
        rewrite Hrun
    end.
    now repeat split.
  - intros process_repo_ok missing_tool vu artifacts OD VF.
    unfold merge_charts_tgz.script, merge_charts_tgz.main_over.
    destruct missing_tool as [tool|].
    + cbn. repeat split. eexists [_; _; _]. reflexivity.
    + unfold merge_charts_tgz.REPOS.
      match goal with
      | |- context [merge_charts_tgz.main_loop true process_repo_ok (?u :: ?rest) ?st] =>
          destruct (main_loop_tgz_first_turn process_repo_ok u rest st eq_refl eq_refl)
            as (st' & Hrun & Hinv & Hlines & Hskip & Hcount);
          rewrite Hrun
      end.
      repeat split; try assumption.
      eexists [_; _; _]. exact Hlines.
Qed.

End main_more_facts.

(** ** The artifact the suffix-matching script resolves *)

Module resolve_more_facts.
Import sh merge_charts_tgz.
Import merge_charts_cases resolve_cases resolve_more_cases.







(** A chart packed as [.tar.gz] is passed over for the archive of the
    tag. *)
Example tar_gz_asset_is_passed_over :
  fst (resolve_artifact "acme/widget" tar_gz_release quiet)
  = Return 0 ("https://github.com/acme/widget/archive/refs/tags/v2.3.1.tar.gz",
              "widget-v2.3.1.tar.gz").
Proof. reflexivity. Qed.

End resolve_more_facts.

(** ** The release lookup of the suffix-matching script *)

Module release_lookup_facts.
Import sh merge_charts_tgz release_lookup.
Import merge_charts_cases release_lookup_cases.

Section Lookup.

Variable api : nat -> string -> api_answer.
Variable GITHUB_TOKEN : string.





End Lookup.


(** A rate-limited lookup gives up after three requests, and says so. *)
Example fetch_latest_release_rate_limited :
  let '(r, w') := fetch_latest_release rate_limited "token" "acme/widget" quiet in
  r = Return 1 None
  /\ curl_calls w' = 3
  /\ slept w' = [2; 4]
  /\ last (log w') (INFO, "")
     = (ERROR, "Failed to fetch acme/widget: HTTP 403 (rate limit exceeded)").
Proof. vm_compute. repeat split. Qed.

(** A gateway error followed by the release. *)
Example fetch_latest_release_second_attempt :
  let '(r, w') := fetch_latest_release second_time_lucky "" "acme/widget" quiet in
  r = Return 0 (Some resolve_cases.widget_release_named)
  /\ curl_calls w' = 2
  /\ slept w' = [2].
Proof. vm_compute. repeat split. Qed.

End release_lookup_facts.

(** ** [process_repo] of the suffix-matching script, end to end *)

Module process_repo_facts.
Import sh merge_charts_tgz.
Import merge_charts_cases resolve_cases resolve_more_cases download_more_cases.
Import process_repo_cases.




(** The run of the witness: the archive of the tag, saved at the third
    attempt. *)
Example process_repo_sample :
  let '(r, w') := process_repo third_time_lucky widget_lookup
                    "helm-wrapper/upstream-charts" "acme/widget" quiet in
  r = Return 0 tt
  /\ files w' "helm-wrapper/upstream-charts/widget-v2.3.1.tar.gz"
     = Some "chart bytes"
  /\ last (log w') (INFO, "") = (INFO, "Saved: widget-v2.3.1.tar.gz").
Proof. vm_compute. repeat split. Qed.

End process_repo_facts.

(** ** The health checker: the processes it starts *)

Module doctor_more_facts.
Import os doctor.
Import doctor_cases doctor_more_cases.

Section Probes.

Variable run : list (list string) -> list string -> ProcResult.
Variable LookPath : string -> option string.

Lemma checkKubectl_procs (w : World) :
  procs (snd (checkKubectl run LookPath w))
  = (procs w ++ match LookPath "kubectl" with
                | Some _ => []
                | None => [kubectl_version]
                end)%list.
Proof.
  unfold checkKubectl, bind, Print, Println, Output, start, ret.
  destruct (LookPath "kubectl"); cbn.
  - now rewrite app_nil_r.
  - now destruct (perr _).
Qed.

Lemma checkHelm_procs (w : World) :
  procs (snd (checkHelm run w))
  = (procs w ++ match perr (run (procs w) helm_version) with
                | Some _ => [helm_version]
                | None => [helm_version; helm_version]
                end)%list.
Proof.
  unfold checkHelm, helm.ValidateHelmInstalled, helm.Version_, helm.ExecuteOutput,
    helm.NewHelmCommand, bind, Print, Println, RunQuiet, Output, start, ret.
  cbn. fold helm_version.
  destruct (perr (run (procs w) helm_version)); cbn; [reflexivity|].
  destruct (perr _); cbn; now rewrite <- app_assoc.
Qed.

Lemma checkKubernetesConnection_procs (w : World) :
  procs (snd (checkKubernetesConnection run w))
  = (procs w ++ [["kubectl"; "cluster-info"]])%list.
Proof.
  unfold checkKubernetesConnection, bind, Print, Println, RunQuiet, start, ret.
  cbn. now destruct (perr _).
Qed.

Lemma checkNamespace_procs (namespace : string) (w : World) :
  procs (snd (checkNamespace run namespace w))
  = (procs w ++ [["kubectl"; "get"; "namespace"; namespace]])%list.
Proof.
  unfold checkNamespace, bind, Print, Println, RunQuiet, start, ret.
  cbn. now destruct (perr _).
Qed.

Lemma checkRedis_procs (namespace : string) (w : World) :
  procs (snd (checkRedis run namespace w))
  = (procs w ++ [["kubectl"; "get"; "pod"; "-n"; namespace; "-l"; "app=redis"; "-o";
                  "jsonpath={.items[0].metadata.name}"]])%list.
Proof.
  unfold checkRedis, bind, Print, Println, Output, start, ret.
  cbn. destruct (perr _); cbn; [reflexivity|].
  now destruct (String.length _ =? 0)%nat.
Qed.

End Probes.

(** X17.  The processes [runDoctor] starts are, in order:
    [kubectl version --client --short] when kubectl is on the path;
    [helm version --short], and the same once more when the first one
    succeeded; then, whatever the earlier checks found,
    [kubectl cluster-info], [kubectl get namespace] for the gateway and the
    AI namespace, and the [kubectl get pod] of the Redis check.  No check is
    skipped because an earlier one failed, and no other process is
    started. *)
Theorem runDoctor_runs_every_probe
        (run : list (list string) -> list string -> ProcResult)
        (LookPath : string -> option string)
        (namespaceGW namespaceAI : string) (w : World) :
  procs (snd (runDoctor run LookPath namespaceGW namespaceAI w))
  = (procs w ++ tool_probes run LookPath (procs w)
       ++ cluster_probes namespaceGW namespaceAI)%list.
Proof.
  unfold runDoctor. unfold bind at 1 2 3. cbn [Println Print].
  match goal with
  | |- context [checkKubectl run LookPath ?w0] =>
      pose proof (checkKubectl_procs run LookPath w0) as Hk;
      destruct (checkKubectl run LookPath w0) as [k w1]
  end.
  unfold bind at 1.
  pose proof (checkHelm_procs run w1) as Hh.
  destruct (checkHelm run w1) as [h w2].
  unfold bind at 1.
  pose proof (checkKubernetesConnection_procs run w2) as Hc.
  destruct (checkKubernetesConnection run w2) as [c w3].
  unfold bind at 1.
  pose proof (checkNamespace_procs run namespaceGW w3) as Hg.
  destruct (checkNamespace run namespaceGW w3) as [g w4].
  unfold bind at 1.
  pose proof (checkNamespace_procs run namespaceAI w4) as Ha.
  destruct (checkNamespace run namespaceAI w4) as [a w5].
  unfold bind at 1.
  pose proof (checkRedis_procs run namespaceAI w5) as Hr.
  destruct (checkRedis run namespaceAI w5) as [r w6].
  cbn [snd procs] in *.
  transitivity (procs w6).
  - unfold bind, Println, Print, ret.
    destruct k, h, c, g, a, r; reflexivity.
  - rewrite Hr, Ha, Hg, Hc, Hh, Hk. unfold tool_probes, cluster_probes.
    rewrite <- !app_assoc. reflexivity.
Qed.

End doctor_more_facts.

(** ** The version report *)

Module version_facts.
Import os github upstream version_cmd.
Import upstream_cases version_cases.

Section Report.

Variable run : list (list string) -> list string -> ProcResult.
Variable client : string -> string -> RepositoryRelease + string.

Lemma print_charts_lines (charts : list ChartRelease) (w : World) :
  print_charts charts w
  = (tt, {| stdout := (stdout w ++ map chart_line charts)%list; procs := procs w |}).
Proof.
  revert w. induction charts as [|chart rest IH]; intros w.
  - cbn. rewrite app_nil_r. now destruct w.
  - cbn [print_charts map]. unfold bind. cbn [Print]. rewrite IH. cbn.
    now rewrite <- app_assoc.
Qed.

Lemma runVersion_report (vars : Vars) (w : World) :
  runVersion run client vars w
  = (None,
     {| stdout := (stdout w ++ report_head vars
                   ++ helm_line (run (procs w) ["helm"; "version"; "--short"])
                   ++ [(Str.nl ++ "📋 Upstream Component Versions" ++ Str.nl)%string;
                       Str.nl]
                   ++ upstream_lines client)%list;
        procs := (procs w ++ [["helm"; "version"; "--short"]])%list |}).
Proof.
  unfold runVersion, helm.Version_, helm.ExecuteOutput, helm.NewHelmCommand,
    upstream_lines, helm_line.
  destruct (GetUpstreamCharts client) as [charts err].
  unfold bind, Println, Print, Output, start, ret. cbn.
  destruct (perr (run (procs w) ["helm"; "version"; "--short"])); cbn;
    destruct err; cbn; rewrite ?print_charts_lines; cbn;
    rewrite <- ?app_assoc; reflexivity.
Qed.

End Report.

(** X18.  [runVersion] always returns nil and starts one process,
    [helm version --short].  After the head of the report and the Helm
    line it prints either one line for each of the four upstreams, when
    every lookup succeeded, or a single warning with the lookup errors:
    when some lookup fails, the versions of the upstreams that were found
    are not shown. *)
Theorem runVersion_lists_every_upstream_or_none
        (run : list (list string) -> list string -> ProcResult)
        (client : string -> string -> RepositoryRelease + string)
        (vars : Vars) (w : World) :
  runVersion run client vars w
  = (None,
     {| stdout := (stdout w ++ report_head vars
                   ++ helm_line (run (procs w) ["helm"; "version"; "--short"])
                   ++ [(Str.nl ++ "📋 Upstream Component Versions" ++ Str.nl)%string;
                       Str.nl]
                   ++ report_tail client)%list;
        procs := (procs w ++ [["helm"; "version"; "--short"]])%list |})
  /\ (List.length (report_tail client) = 4 \/ List.length (report_tail client) = 1)
  /\ (List.length (report_tail client) = 4 <-> failed client upstreams = []).
Proof.
  split.
  - rewrite runVersion_report. unfold upstream_lines, report_tail, GetUpstreamCharts.
    rewrite upstream_facts.GetUpstreamChartsOver_spec. cbn [fst snd].
    destruct (failed client upstreams); [reflexivity|].
    cbn [String.append]. repeat f_equal.
  - assert (Hl : List.length (fetched client upstreams)
                 + List.length (failed client upstreams) = 4)
      by apply (upstream_more_facts.fetched_failed_length client upstreams).
    unfold report_tail.
    destruct (failed client upstreams) as [|e rest]; cbn [List.length] in *.
    + rewrite List.length_map. split; [left; lia|]. split; [reflexivity|lia].
    + split; [now right|]. split; [lia|discriminate].
Qed.

(** X19.  Whatever build time the build hands to [SetVersionInfo], the
    report of the version command shows "unknown": the assignment in
    [SetVersionInfo] assigns the parameter to itself, and the package
    variable keeps its initial value.  The version and the commit are
    shown as given. *)
Theorem main_version_never_shows_the_build_time
        (run : list (list string) -> list string -> ProcResult)
        (client : string -> string -> RepositoryRelease + string)
        (version commit buildTime_of_build : string) (w : World) :
  (exists rest,
      stdout (snd (main_version run client version commit buildTime_of_build w))
      = (stdout w
           ++ [ ("📦 envoy-ai-installer Version Information" ++ Str.nl)%string;
                Str.nl;
                ("  CLI Version:    " ++ version ++ Str.nl)%string;
                ("  Git Commit:     " ++ commit ++ Str.nl)%string;
                ("  Build Time:     unknown" ++ Str.nl)%string ]
           ++ rest)%list)
  /\ forall other,
      main_version run client version commit other w
      = main_version run client version commit buildTime_of_build w.
Proof.
  split.
  - unfold main_version. rewrite runVersion_report. cbn [snd stdout].
    unfold report_head, SetVersionInfo, initial.
    cbn [cliVersion gitCommit buildTime].
    eexists. cbn [app]. repeat f_equal.
  - intros other. reflexivity.
Qed.

(** Three upstreams found, one not: no version is listed. *)
Example runVersion_hides_found_versions :
  List.length (fetched third_fails upstreams) = 3
  /\ report_tail third_fails
     = [ "  ⚠️  Could not fetch upstream versions: errors fetching upstream charts:"
         ++ Str.nl
         ++ "failed to fetch latest release for envoyproxy/ai-gateway-crds-helm: 404 Not Found"
         ++ Str.nl ].
Proof. vm_compute. split; reflexivity. Qed.

End version_facts.

(** ** The download of the official values, and what the install reads
       of the configuration *)

Module fetch_facts.
Import os config net install_steps.
Import install_cases install_steps_cases fetch_cases.

(** Filling a file changes no name. *)
Lemma fill_names (name content : string) (l : list (string * string)) :
  map fst (map (fun f => if String.eqb (fst f) name then (name, content) else f) l)
  = map fst l.
Proof.
  induction l as [|[n c] l IH]; [reflexivity|]. cbn [map fst]. rewrite IH.
  destruct (String.eqb_spec n name) as [->|_]; reflexivity.
Qed.

(** X20.  Every call of [fetchRemoteValuesFile].  It makes one request
    and prints nothing.  A transport error, a status other than 200 and a
    failed [CreateTemp] give an empty name and the error, and no temporary
    file.  After a 200 and a successful [CreateTemp] the new file holds
    what was read of the body; the name is returned only when the body was
    read to its end, and a failed read returns the error with an empty
    name while the file it created stays where it is. *)
Theorem fetchRemoteValuesFile_outcome
        (http : list string -> string -> Response)
        (CreateTemp : list (string * string) -> string + string)
        (url : string) (e : Env) :
  fetch_summary http CreateTemp url e.
Proof.
  unfold fetch_summary, fetchRemoteValuesFile, net.bind, Get, create_temp, fill, net.ret.
  destruct (http (gets e) url) as [gerr|status read read_err] eqn:Hh.
  - cbn. now repeat split.
  - destruct (Nat.eqb_spec status 200) as [->|Hs]; cbn [negb].
    + cbn [temps gets io]. destruct (CreateTemp (temps e)) as [created|cerr] eqn:Hc.
      * cbn [temps gets io].
        assert (Hn : map fst (map (fun f => if String.eqb (fst f) created
                                            then (created, read) else f)
                                  (temps e ++ [(created, "")])%list)
                     = (map fst (temps e) ++ [created])%list).
        { rewrite fill_names, map_app. reflexivity. }
        assert (Hi : In (created, read)
                        (map (fun f => if String.eqb (fst f) created
                                       then (created, read) else f)
                             (temps e ++ [(created, "")])%list)).
        { rewrite map_app. apply in_or_app. right. cbn.
          rewrite String.eqb_refl. now left. }
        destruct read_err; cbn; now repeat split.
      * cbn. now repeat split.
    + cbn. now repeat split.
Qed.

(** X21.  The install reads three fields of the configuration: the two
    namespaces and [SkipClean].  Two configurations that agree on them give
    the same run; the [DryRun] and [ValuesExtra] fields of the
    configuration have no effect, the dry-run flag and the extra values
    being taken from elsewhere. *)
Theorem runInstall_ignores_config_dry_run_and_values
        (run : list (list string) -> list string -> ProcResult)
        (http : list string -> string -> Response)
        (CreateTemp : list (string * string) -> string + string)
        (TrimSpace : string -> string) (valuesExtra : string) (withRedis : bool)
        (cfg cfg' : Config) (isDryRun : bool) (e : Env) :
  same_install_settings cfg cfg' ->
  runInstall run http CreateTemp TrimSpace valuesExtra withRedis cfg isDryRun e
  = runInstall run http CreateTemp TrimSpace valuesExtra withRedis cfg' isDryRun e.
Proof.
  intros (Hg & Ha & Hs).
  destruct cfg as [gw ai skip dry extra], cfg' as [gw' ai' skip' dry' extra'].
  cbn in Hg, Ha, Hs. subst gw' ai' skip'.
  reflexivity.
Qed.

Lemma runInstall_ignores_config_dry_run_and_values_witness :
  runInstall all_fine values_served temp_dir trim_blanks "" false
             default_cfg false start_env
  = runInstall all_fine values_served temp_dir trim_blanks "" false
               other_cfg false start_env.
Proof.
  apply (runInstall_ignores_config_dry_run_and_values
           all_fine values_served temp_dir trim_blanks "" false
           default_cfg other_cfg false start_env).
  repeat split.
Defined.

End fetch_facts.

(** ** The error texts of the install *)

Module install_error_facts.
Import os config net install_steps.
Import install_cases install_steps_cases install_error_cases.

Section Fails.

Variable run : list (list string) -> list string -> ProcResult.







End Fails.


#[local] Opaque net.bind net.ret lift helm.Execute Print
  install.cleanPreviousInstall fetchRemoteValuesFile.


#[local] Transparent net.bind net.ret lift helm.Execute Print
  install.cleanPreviousInstall fetchRemoteValuesFile.



End install_error_facts.

(** ** The two keyword selections side by side *)

Module keyword_facts.
Import github upstream.
Import upstream_cases.

(** A word that contains a string contains its parts. *)
Lemma Contains_longer (s pre sub post : string) :
  Str.Contains s (pre ++ sub ++ post) = true -> Str.Contains s sub = true.
Proof.
  intros H. apply Contains_iff in H as (a & b & ->).
  apply Contains_iff. exists (a ++ pre), (post ++ b).
  now rewrite !string_app_assoc.
Qed.

(** X23.  Every asset the Go lookup selects by keyword is selected by
    the pattern of [merge-charts.sh] as well, the pattern's [tgz] being a
    part of the keyword [.tgz]; the converse fails, for a name that has
    [tgz] without the dot. *)
Theorem shell_pattern_selects_what_go_keywords_select :
  (forall a : ReleaseAsset,
      matches_keyword a = true ->
      merge_charts.test_i merge_charts.asset_pattern (GetName a) = true)
  /\ (exists a : ReleaseAsset,
         merge_charts.test_i merge_charts.asset_pattern (GetName a) = true
         /\ matches_keyword a = false).
Proof.
  split.
  - intros a. unfold matches_keyword, keywords, merge_charts.test_i,
                merge_charts.asset_pattern.
    cbn [existsb]. rewrite !orb_false_r.
    intros H. apply orb_true_iff in H as [H|H]; [now rewrite H|].
    apply orb_true_iff in H as [H|H]; [now rewrite H, orb_true_r|].
    apply orb_true_iff in H as [H|H].
    + apply (Contains_longer _ "." "tgz" "") in H. rewrite H.
      now rewrite !orb_true_r.
    + rewrite H. now rewrite !orb_true_r.
  - exists {| Name := Some "bundle_TGZ"; BrowserDownloadURL := None |}.
    split; reflexivity.
Qed.

End keyword_facts.
